(** * Cards and decks: a shallow embedding of [OOP_EXAM_P2.py]

    The Python module defines two enumerations ([CardSuit], [CardRank]), an
    immutable value class [Card] with rich comparisons and a hash, and a
    mutable container [Deck] that owns a Python list of cards.

    The embedding keeps the shape of the program:
    - Python values are a small universe [val]; a method that may raise
      returns a [result];
    - list objects live in a store ([gmap loc (list val)]), so that aliasing
      between the deck's private list and the lists handed out by the
      [cards] property is visible;
    - the methods of [Deck] are computations in a state-and-exception monad
      over that store. *)

From Stdlib Require Import ZArith String Ascii.
From stdpp Require Import base gmap list strings.

(* ===================================================================== *)
(** ** Enumerations *)
(* ===================================================================== *)

(** [class CardSuit(Enum)] *)
Inductive CardSuit := CLUBS | DIAMONDS | HEARTS | SPADES.

(** [class CardRank(Enum)] *)
Inductive CardRank :=
  | TWO | THREE | FOUR | FIVE | SIX | SEVEN | EIGHT | NINE | TEN
  | JACK | QUEEN | KING | ACE.

#[global] Instance CardSuit_eq_dec : EqDecision CardSuit.
Proof. solve_decision. Defined.
#[global] Instance CardRank_eq_dec : EqDecision CardRank.
Proof. solve_decision. Defined.

Module CardSuit.
Local Open Scope Z_scope.
(** The [.value] attribute of a member. *)
Definition value (s : CardSuit) : Z :=
  match s with
  | CLUBS => 1 | DIAMONDS => 2 | HEARTS => 3 | SPADES => 4
  end.

(** The [.name] attribute of a member. *)
Definition name (s : CardSuit) : string :=
  match s with
  | CLUBS => "CLUBS" | DIAMONDS => "DIAMONDS"
  | HEARTS => "HEARTS" | SPADES => "SPADES"
  end.

(** Iterating an [Enum] class yields its members in definition order. *)
Definition members : list CardSuit := [CLUBS; DIAMONDS; HEARTS; SPADES].
End CardSuit.

Module CardRank.
Local Open Scope Z_scope.
Definition value (r : CardRank) : Z :=
  match r with
  | TWO => 2 | THREE => 3 | FOUR => 4 | FIVE => 5 | SIX => 6
  | SEVEN => 7 | EIGHT => 8 | NINE => 9 | TEN => 10
  | JACK => 11 | QUEEN => 12 | KING => 13 | ACE => 14
  end.

Definition name (r : CardRank) : string :=
  match r with
  | TWO => "TWO" | THREE => "THREE" | FOUR => "FOUR" | FIVE => "FIVE"
  | SIX => "SIX" | SEVEN => "SEVEN" | EIGHT => "EIGHT" | NINE => "NINE"
  | TEN => "TEN" | JACK => "JACK" | QUEEN => "QUEEN" | KING => "KING"
  | ACE => "ACE"
  end.

Definition members : list CardRank :=
  [TWO; THREE; FOUR; FIVE; SIX; SEVEN; EIGHT; NINE; TEN;
   JACK; QUEEN; KING; ACE].
End CardRank.

(* ===================================================================== *)
(** ** Python values, exceptions and results *)
(* ===================================================================== *)

(** A [Card] object: the two private attributes set by [Card.__init__].
    The class has no mutating method, so a card is modelled as a value. *)
Record Card := mkCard { _suit : CardSuit; _rank : CardRank }.

#[global] Instance Card_eq_dec : EqDecision Card.
Proof. solve_decision. Defined.

(** The Python objects that the program handles or can be handed. *)
Inductive val :=
  | VNone
  | VNotImplemented
  | VBool (b : bool)
  | VInt (n : Z)
  | VStr (s : string)
  | VCard (c : Card).

#[global] Instance val_eq_dec : EqDecision val.
Proof. solve_decision. Defined.

Inductive exn :=
  | TypeError (msg : string)
  | IndexError (msg : string)
  | ValueError (msg : string)
  | SystemError (msg : string).

Inductive result (A : Type) :=
  | Ok (a : A)
  | Raise (e : exn).
Arguments Ok {A} a.
Arguments Raise {A} e.

(** [isinstance(v, Card)] *)
Definition isinstance_Card (v : val) : bool :=
  match v with VCard _ => true | _ => false end.

(** [type(v).__name__], used in the messages of the interpreter. *)
Definition type_name (v : val) : string :=
  match v with
  | VNone => "NoneType"
  | VNotImplemented => "NotImplementedType"
  | VBool _ => "bool"
  | VInt _ => "int"
  | VStr _ => "str"
  | VCard _ => "Card"
  end.

(** [v is None] *)
Definition is_None (v : val) : bool :=
  match v with VNone => true | _ => false end.

(* ===================================================================== *)
(** ** Host operations on tuples and strings *)
(* ===================================================================== *)

Module Tuple.
Local Open Scope Z_scope.
(** Comparison of two pairs of integers, as Python compares tuples: the
    first position where the components differ decides; equal pairs of the
    same length are neither smaller nor greater. *)
Definition eq (a b : Z * Z) : bool :=
  (a.1 =? b.1) && (a.2 =? b.2).

Definition lt (a b : Z * Z) : bool :=
  if negb (a.1 =? b.1) then a.1 <? b.1
  else if negb (a.2 =? b.2) then a.2 <? b.2
  else false.

Definition gt (a b : Z * Z) : bool :=
  if negb (a.1 =? b.1) then a.1 >? b.1
  else if negb (a.2 =? b.2) then a.2 >? b.2
  else false.
End Tuple.

Module Str.
Definition is_upper (a : ascii) : bool :=
  let n := nat_of_ascii a in (65 <=? n)%nat && (n <=? 90)%nat.
Definition is_lower (a : ascii) : bool :=
  let n := nat_of_ascii a in (97 <=? n)%nat && (n <=? 122)%nat.
Definition to_upper (a : ascii) : ascii :=
  if is_lower a then ascii_of_nat (nat_of_ascii a - 32) else a.
Definition to_lower (a : ascii) : ascii :=
  if is_upper a then ascii_of_nat (nat_of_ascii a + 32) else a.

(** [str.title()] on ASCII text: a cased character is upper-cased when it
    follows an uncased one (or starts the string), lower-cased otherwise. *)
Fixpoint title_from (prev_cased : bool) (s : string) : string :=
  match s with
  | EmptyString => EmptyString
  | String a s' =>
      let cased := is_upper a || is_lower a in
      let a' := if cased
                then (if prev_cased then to_lower a else to_upper a)
                else a in
      String a' (title_from cased s')
  end.

Definition title (s : string) : string := title_from false s.
End Str.

Module Hash.
Local Open Scope Z_scope.
(** CPython (3.8 and later, 64-bit) hashing of integers and of tuples, with
    the machine arithmetic on [Py_uhash_t] written out modulo [2^64]. *)
Definition wrap (x : Z) : Z := x mod 2 ^ 64.
Definition signed (x : Z) : Z := if x <? 2 ^ 63 then x else x - 2 ^ 64.

Definition XXPRIME_1 : Z := 11400714785074694791.
Definition XXPRIME_2 : Z := 14029467366897019727.
Definition XXPRIME_5 : Z := 2870177450012600261.

Definition rotl31 (x : Z) : Z :=
  wrap (Z.lor (Z.shiftl x 31) (Z.shiftr x 33)).

(** [hash(n)] for an [int]: reduction modulo the Mersenne prime
    [2^61 - 1], keeping the sign; [-1] is reserved and replaced by [-2]. *)
Definition of_int (n : Z) : Z :=
  let h := Z.sgn n * (Z.abs n mod (2 ^ 61 - 1)) in
  if h =? -1 then -2 else h.

Definition round (acc lane : Z) : Z :=
  wrap (rotl31 (wrap (acc + wrap lane * XXPRIME_2)) * XXPRIME_1).

(** [hash(t)] for a tuple whose items hash to [lanes]. *)
Definition of_lanes (lanes : list Z) : Z :=
  let acc := foldl round XXPRIME_5 lanes in
  let acc := wrap (acc + Z.lxor (Z.of_nat (length lanes))
                                (Z.lxor XXPRIME_5 3527539)) in
  if acc =? 2 ^ 64 - 1 then 1546275796 else signed acc.

Definition of_int_pair (p : Z * Z) : Z :=
  of_lanes [of_int p.1; of_int p.2].
End Hash.

(* ===================================================================== *)
(** ** [class Card] *)
(* ===================================================================== *)

Module Card.
Definition suit (self : Card) : CardSuit := _suit self.
Definition rank (self : Card) : CardRank := _rank self.

(** The tuple [(self._rank.value, self._suit.value)] that the comparisons
    and the hash are built on. *)
Definition key (self : Card) : Z * Z :=
  (CardRank.value (_rank self), CardSuit.value (_suit self)).

Definition get_display_name (self : Card) : string :=
  Str.title (CardRank.name (_rank self)) +:+ " of " +:+
  Str.title (CardSuit.name (_suit self)).

Definition __eq__ (self : Card) (other : val) : result val :=
  match other with
  | VCard o => Ok (VBool (Tuple.eq (key self) (key o)))
  | _ => Ok VNotImplemented
  end.

Definition __lt__ (self : Card) (other : val) : result val :=
  match other with
  | VCard o => Ok (VBool (Tuple.lt (key self) (key o)))
  | _ => Ok VNotImplemented
  end.

Definition __gt__ (self : Card) (other : val) : result val :=
  match other with
  | VCard o => Ok (VBool (Tuple.gt (key self) (key o)))
  | _ => Ok VNotImplemented
  end.

Definition __hash__ (self : Card) : Z := Hash.of_int_pair (key self).

Definition __str__ (self : Card) : string := get_display_name self.
End Card.

(* ===================================================================== *)
(** ** Rich comparison as the interpreter performs it *)
(* ===================================================================== *)

Inductive cmpop := Py_EQ | Py_LT | Py_GT.

Module Object.
Local Open Scope Z_scope.

(** The reflected operation tried on the right operand. *)
Definition swapped (op : cmpop) : cmpop :=
  match op with Py_EQ => Py_EQ | Py_LT => Py_GT | Py_GT => Py_LT end.

Definition symbol (op : cmpop) : string :=
  match op with Py_EQ => "==" | Py_LT => "<" | Py_GT => ">" end.

Definition as_int (v : val) : option Z :=
  match v with
  | VBool b => Some (Z.b2z b)
  | VInt n => Some n
  | _ => None
  end.

Definition compare_int (op : cmpop) (a b : Z) : bool :=
  match op with Py_EQ => a =? b | Py_LT => a <? b | Py_GT => a >? b end.

(** Strings compare by code point; on ASCII text that is byte order. *)
Definition compare_str (op : cmpop) (a b : string) : bool :=
  match op with
  | Py_EQ => String.eqb a b
  | Py_LT => String.ltb a b
  | Py_GT => String.ltb b a
  end.

(** [a is b] for two operands that both declined a comparison: only the
    singletons can be one and the same object there. *)
Definition same_object (a b : val) : bool :=
  match a, b with
  | VNone, VNone | VNotImplemented, VNotImplemented => true
  | _, _ => false
  end.

(** The comparison slot of the type of [self]: the methods of [Card] for a
    card, the built-in behaviour for the other types. *)
Definition richcompare (op : cmpop) (self other : val) : result val :=
  match self with
  | VCard c =>
      match op with
      | Py_EQ => Card.__eq__ c other
      | Py_LT => Card.__lt__ c other
      | Py_GT => Card.__gt__ c other
      end
  | VBool _ | VInt _ =>
      match as_int self, as_int other with
      | Some a, Some b => Ok (VBool (compare_int op a b))
      | _, _ => Ok VNotImplemented
      end
  | VStr a =>
      match other with
      | VStr b => Ok (VBool (compare_str op a b))
      | _ => Ok VNotImplemented
      end
  | VNone | VNotImplemented =>
      match op with
      | Py_EQ => if same_object self other then Ok (VBool true)
                 else Ok VNotImplemented
      | _ => Ok VNotImplemented
      end
  end.

(** [type(w)] is a proper subclass of [type(v)]: only [bool] under [int]. *)
Definition proper_subtype (w v : val) : bool :=
  match w, v with VBool _, VInt _ => true | _, _ => false end.

Definition unsupported (op : cmpop) (v w : val) : exn :=
  TypeError ("'" +:+ symbol op +:+ "' not supported between instances of '"
             +:+ type_name v +:+ "' and '" +:+ type_name w +:+ "'").

(** What is left when both operands declined. *)
Definition fallback (op : cmpop) (v w : val) : result val :=
  match op with
  | Py_EQ => Ok (VBool (same_object v w))
  | _ => Raise (unsupported op v w)
  end.

(** Try the slot of [v], continue with [k] when it returns
    [NotImplemented]. *)
Definition attempt (r : result val) (k : result val) : result val :=
  match r with
  | Ok VNotImplemented => k
  | _ => r
  end.

(** The operators [v == w], [v < w], [v > w]: the left operand's method,
    then the right operand's reflected method (first, when its type is a
    proper subclass of the left one's), then the default. *)
Definition compare (op : cmpop) (v w : val) : result val :=
  if proper_subtype w v then
    attempt (richcompare (swapped op) w v)
      (attempt (richcompare op v w) (fallback op v w))
  else
    attempt (richcompare op v w)
      (attempt (richcompare (swapped op) w v) (fallback op v w)).

(** Truth value of an object ([bool(v)]). *)
Definition is_true (v : val) : bool :=
  match v with
  | VNone => false
  | VNotImplemented => true
  | VBool b => b
  | VInt n => negb (n =? 0)
  | VStr s => negb (String.eqb s "")
  | VCard _ => true
  end.

(** Comparison used as a condition. *)
Definition compare_bool (op : cmpop) (v w : val) : result bool :=
  match compare op v w with
  | Ok r => Ok (is_true r)
  | Raise e => Raise e
  end.
End Object.

(* ===================================================================== *)
(** ** Built-in [max] and [min] *)
(* ===================================================================== *)

Module Builtins.
(** The loop of [max]/[min] over the items after the first: the running
    best is replaced by an item that compares [op] to it, so that among
    equal candidates the first one met is kept. *)
Fixpoint best_loop (op : cmpop) (best : val) (items : list val)
  : result val :=
  match items with
  | [] => Ok best
  | item :: rest =>
      match Object.compare_bool op item best with
      | Ok true => best_loop op item rest
      | Ok false => best_loop op best rest
      | Raise e => Raise e
      end
  end.

Definition max (items : list val) : result val :=
  match items with
  | [] => Raise (ValueError "max() arg is an empty sequence")
  | first :: rest => best_loop Py_GT first rest
  end.

Definition min (items : list val) : result val :=
  match items with
  | [] => Raise (ValueError "min() arg is an empty sequence")
  | first :: rest => best_loop Py_LT first rest
  end.
End Builtins.

(* ===================================================================== *)
(** ** The store of list objects and the monad of methods *)
(* ===================================================================== *)

(** Addresses of list objects. *)
Definition loc := positive.

(** A computation reads and updates the store, and returns or raises; the
    store reached when an exception is raised is kept, as in Python. *)
Definition M (A : Type) : Type :=
  gmap loc (list val) → result A * gmap loc (list val).

#[global] Instance M_ret : MRet M := λ A a σ, (Ok a, σ).

#[global] Instance M_bind : MBind M := λ A B f m σ,
  match m σ with
  | (Ok a, σ') => f a σ'
  | (Raise e, σ') => (Raise e, σ')
  end.

Definition raise {A} (e : exn) : M A := λ σ, (Raise e, σ).

Definition lift {A} (r : result A) : M A := λ σ, (r, σ).

Module Store.
(** A new list object with the given items, at an address not in use. *)
Definition alloc (items : list val) : M loc := λ σ,
  let l := fresh (dom σ) in (Ok l, <[l := items]> σ).

(** The items of the list object at [l]. An address that holds no list
    cannot be reached from a running program. *)
Definition load (l : loc) : M (list val) := λ σ,
  match σ !! l with
  | Some items => (Ok items, σ)
  | None => (Raise (SystemError "no list object at this address"), σ)
  end.

Definition store (l : loc) (items : list val) : M () := λ σ,
  (Ok (), <[l := items]> σ).
End Store.

(* ===================================================================== *)
(** ** Methods of [list] used by the program *)
(* ===================================================================== *)

Module PyList.
(** A Python index on a list of [n] items: negative indices count from the
    end; [None] when the index is out of range. *)
Definition index_of (n : nat) (i : Z) : option nat :=
  let j := if (i <? 0)%Z then (i + Z.of_nat n)%Z else i in
  if ((0 <=? j)%Z && (j <? Z.of_nat n)%Z)%bool
  then Some (Z.to_nat j) else None.

(** [list(x)]: a new list object with the same items. *)
Definition copy (l : loc) : M loc :=
  items ← Store.load l; Store.alloc items.

(** [bool(x)]: a list is true when it is not empty. *)
Definition is_true (l : loc) : M bool :=
  items ← Store.load l;
  mret (match items with [] => false | _ :: _ => true end).

(** [len(x)] *)
Definition len (l : loc) : M Z :=
  items ← Store.load l; mret (Z.of_nat (length items)).

(** [x.append(v)] *)
Definition append (l : loc) (v : val) : M () :=
  items ← Store.load l; Store.store l (items ++ [v]).

(** [x[i]] for an integer [i]. *)
Definition getitem (l : loc) (i : Z) : M val :=
  items ← Store.load l;
  match index_of (length items) i ≫= (items !!.) with
  | Some v => mret v
  | None => raise (IndexError "list index out of range")
  end.

(** [x.pop(i)] *)
Definition pop (l : loc) (i : Z) : M val :=
  items ← Store.load l;
  match items with
  | [] => raise (IndexError "pop from empty list")
  | _ :: _ =>
      match index_of (length items) i with
      | Some n =>
          match items !! n with
          | Some v => Store.store l (delete n items);; mret v
          | None => raise (IndexError "pop index out of range")
          end
      | None => raise (IndexError "pop index out of range")
      end
  end.

(** [max(x)], [min(x)] on a list object. *)
Definition max (l : loc) : M val :=
  items ← Store.load l; lift (Builtins.max items).

Definition min (l : loc) : M val :=
  items ← Store.load l; lift (Builtins.min items).
End PyList.

(* ===================================================================== *)
(** ** [random.shuffle] *)
(* ===================================================================== *)

Module Random.
(** [x[i], x[j] = x[j], x[i]] *)
Definition swap (i j : nat) (items : list val) : list val :=
  match items !! i, items !! j with
  | Some a, Some b => <[j := a]> (<[i := b]> items)
  | _, _ => items
  end.

(** The loop [for i in reversed(range(1, len(x)))] of [random.shuffle],
    entered at index [i]. The generator is an oracle [randbelow]: the draw
    for the bound [n] is [randbelow n], brought into [0 .. n-1]. *)
Fixpoint shuffle_from (randbelow : nat → nat) (i : nat) (items : list val)
  : list val :=
  match i with
  | O => items
  | S i' =>
      let j := randbelow (S i) `mod` S i in
      shuffle_from randbelow i' (swap i j items)
  end.

(** [random.shuffle(x)], in place. *)
Definition shuffle (randbelow : nat → nat) (l : loc) : M () :=
  items ← Store.load l;
  Store.store l (shuffle_from randbelow (length items - 1) items).
End Random.

(* ===================================================================== *)
(** ** [class Deck] *)
(* ===================================================================== *)

(** A [Deck] object: its attribute [_cards] refers to a list object. *)
Record Deck := mkDeck { _cards : loc }.

Module Deck.
(** The list comprehension
    [[Card(suit, rank) for suit in CardSuit for rank in CardRank]]. *)
Definition all_cards : list Card :=
  suit ← CardSuit.members; rank ← CardRank.members; [mkCard suit rank].

Definition __init__ (randbelow : nat → nat) (shuffle : bool) : M Deck :=
  l ← Store.alloc (VCard <$> all_cards);
  (if shuffle then Random.shuffle randbelow l else mret ());;
  mret (mkDeck l).

(** The [cards] property. *)
Definition cards (self : Deck) : M loc :=
  PyList.copy (_cards self).

Definition shuffle (randbelow : nat → nat) (self : Deck) : M Deck :=
  Random.shuffle randbelow (_cards self);;
  mret self.

Definition draw (self : Deck) : M val :=
  nonempty ← PyList.is_true (_cards self);
  if (nonempty : bool) then PyList.pop (_cards self) 0 else mret VNone.

Definition add_card (self : Deck) (card : val) : M Deck :=
  if negb (isinstance_Card card)
  then raise (TypeError "Only Card instances can be added to the deck")
  else PyList.append (_cards self) card;; mret self.

Definition __len__ (self : Deck) : M Z :=
  PyList.len (_cards self).

Definition __getitem__ (self : Deck) (index : Z) : M val :=
  PyList.getitem (_cards self) index.

Definition max (self : Deck) : M val :=
  nonempty ← PyList.is_true (_cards self);
  if (nonempty : bool) then PyList.max (_cards self) else mret VNone.

Definition min (self : Deck) : M val :=
  nonempty ← PyList.is_true (_cards self);
  if (nonempty : bool) then PyList.min (_cards self) else mret VNone.

(** The values that the generator [__iter__] yields when it is run to its
    end. Its body runs at the first request: both extremes are computed
    before the first [yield], and nothing is read between the two. *)
Definition __iter__ (self : Deck) : M (list val) :=
  highest ← max self;
  lowest ← min self;
  if (negb (is_None highest) && negb (is_None lowest))%bool
  then mret [highest; lowest]
  else mret [].
End Deck.

(** The state of a deck that the class maintains: its list object exists
    and holds cards only ([__init__] fills it with cards, [add_card] refuses
    anything else, and no other method puts an item in). *)
Definition holds_cards (σ : gmap loc (list val)) (self : Deck) : Prop :=
  ∃ cs : list Card, σ !! _cards self = Some (VCard <$> cs).

(* ===================================================================== *)
(** ** [Card.__repr__] *)
(* ===================================================================== *)

From Stdlib Require DecimalString.

Module Repr.
(** [repr(n)] for an [int]: its decimal digits, with a sign when negative. *)
Definition of_int (n : Z) : string :=
  DecimalString.NilZero.string_of_int (Z.to_int n).

(** [repr] of an [Enum] member: [<Class.NAME: value>]. *)
Definition of_member (cls name : string) (value : Z) : string :=
  "<" +:+ cls +:+ "." +:+ name +:+ ": " +:+ of_int value +:+ ">".

Definition of_suit (s : CardSuit) : string :=
  of_member "CardSuit" (CardSuit.name s) (CardSuit.value s).

Definition of_rank (r : CardRank) : string :=
  of_member "CardRank" (CardRank.name r) (CardRank.value r).

(** [f"Card(suit={self._suit!r}, rank={self._rank!r})"] *)
Definition __repr__ (self : Card) : string :=
  "Card(suit=" +:+ of_suit (_suit self) +:+ ", rank="
  +:+ of_rank (_rank self) +:+ ")".
End Repr.

(* ===================================================================== *)
(** ** Programs that use a deck *)
(* ===================================================================== *)

Module Client.
(** One call on a deck, with its arguments. *)
Inductive call :=
  | Shuffle (randbelow : nat → nat)
  | Draw
  | AddCard (card : val)
  | Cards
  | Len
  | GetItem (index : Z)
  | Max
  | Min
  | Iter.

(** The call made as a statement: the value it returns is dropped. *)
Definition perform (self : Deck) (c : call) : M () :=
  match c with
  | Shuffle randbelow => Deck.shuffle randbelow self ≫= λ _, mret ()
  | Draw => Deck.draw self ≫= λ _, mret ()
  | AddCard card => Deck.add_card self card ≫= λ _, mret ()
  | Cards => Deck.cards self ≫= λ _, mret ()
  | Len => Deck.__len__ self ≫= λ _, mret ()
  | GetItem index => Deck.__getitem__ self index ≫= λ _, mret ()
  | Max => Deck.max self ≫= λ _, mret ()
  | Min => Deck.min self ≫= λ _, mret ()
  | Iter => Deck.__iter__ self ≫= λ _, mret ()
  end.

(** The store after a series of calls by a client that catches whatever a
    call raises and goes on with the next one. *)
Definition run (self : Deck) (calls : list call) (σ : gmap loc (list val))
  : gmap loc (list val) :=
  foldl (λ σ' c, (perform self c σ').2) σ calls.

(** [n] calls of [draw()] in a row, with the values they return. *)
Fixpoint draw_many (self : Deck) (n : nat) : M (list val) :=
  match n with
  | O => mret []
  | S n' =>
      v ← Deck.draw self;
      vs ← draw_many self n';
      mret (v :: vs)
  end.
End Client.

(* ===================================================================== *)
(** ** [main] *)
(* ===================================================================== *)

Module Main.
(** An argument handed to [print]: a literal text, an integer, an object,
    or a list object, recorded with the items it holds at that moment. *)
Inductive arg :=
  | Text (s : string)
  | Number (n : Z)
  | Value (v : val)
  | Items (items : list val).

(** [x[:stop]]: a new list object with the items before position [stop];
    a negative [stop] counts from the end. *)
Definition prefix (l : loc) (stop : Z) : M loc :=
  items ← Store.load l;
  let n := Z.of_nat (length items) in
  let stop' := if (stop <? 0)%Z then Z.max 0 (stop + n) else Z.min stop n in
  Store.alloc (take (Z.to_nat stop') items).

(** The body of a [for] loop run on each item in turn; an exception ends
    the loop and is passed on. *)
Fixpoint for_each {A B} (body : A → M B) (xs : list A) : M (list B) :=
  match xs with
  | [] => mret []
  | x :: xs' =>
      b ← body x;
      bs ← for_each body xs';
      mret (b :: bs)
  end.

(** [main()], returning the arguments of its calls of [print], one entry a
    call. The deck is built with [shuffle=False]. *)
Definition main (randbelow : nat → nat) : M (list (list arg)) :=
  deck ← Deck.__init__ randbelow false;
  snapshot ← Deck.cards deck;
  first5 ← prefix snapshot 5;
  shown ← Store.load first5;
  let out1 := [[Text "The deck is created, first 5 cards: "; Items shown]] in
  top_card ← Deck.draw deck;
  let out2 := [[Text "Top card:"; Value top_card]] in
  Deck.add_card deck top_card;;
  n ← Deck.__len__ deck;
  let out3 := [[Text "Added card back, the length is: "; Number n];
               [Text "Accessing cards directly by index:"]] in
  by_index ← for_each (λ i, v ← Deck.__getitem__ deck i; mret [Value v])
                [0; 1; 2; 3; 4]%Z;
  let out4 := [[Text "Iterating through all cards in the deck:"]] in
  yielded ← Deck.__iter__ deck;
  let iterated := (λ card, [Value card]) <$> yielded in
  highest ← Deck.max deck;
  let out5 := [[Text "The highest card in deck:"; Value highest]] in
  lowest ← Deck.min deck;
  let out6 := [[Text "The lowest card in deck:"; Value lowest]] in
  mret (out1 ++ out2 ++ out3 ++ by_index ++ out4 ++ iterated ++ out5 ++ out6).
End Main.

(* ===================================================================== *)
(** ** Sample data *)
(* ===================================================================== *)

Module Sample.
(** A deck object whose list lives at address 1. *)
Definition deck : Deck := mkDeck 1%positive.

Definition hand : list Card :=
  [mkCard HEARTS NINE; mkCard CLUBS ACE; mkCard SPADES TWO].

(** A two-card deck, the greater card first. *)
Definition pair : list Card := [mkCard HEARTS KING; mkCard CLUBS TWO].

(** The store in which the list of [deck] holds the given cards. *)
Definition store_of (cs : list Card) : gmap loc (list val) :=
  {[ 1%positive := VCard <$> cs ]}.
End Sample.

(* ===================================================================== *)
(** * Properties *)
(* ===================================================================== *)

(** ** The host model agrees with the interpreter on sample values *)

Example hash_empty_tuple : Hash.of_lanes [] = 5740354900026072187%Z.
Proof. vm_compute. reflexivity. Qed.

Example hash_two_of_clubs :
  Card.__hash__ (mkCard CLUBS TWO) = 6794810172467074373%Z.
Proof. vm_compute. reflexivity. Qed.

Example hash_ace_of_spades :
  Card.__hash__ (mkCard SPADES ACE) = (-2440865424441286267)%Z.
Proof. vm_compute. reflexivity. Qed.

Example display_two_of_clubs :
  Card.__str__ (mkCard CLUBS TWO) = "Two of Clubs"%string.
Proof. vm_compute. reflexivity. Qed.

Example display_queen_of_hearts :
  Card.get_display_name (mkCard HEARTS QUEEN) = "Queen of Hearts"%string.
Proof. vm_compute. reflexivity. Qed.

(** ** Comparison of tuples *)

Section tuple_order.
Local Open Scope Z_scope.
Implicit Types a b c : Z * Z.

Lemma Tuple_eq_spec a b : Tuple.eq a b = true ↔ a = b.
Proof.
  destruct a as [a1 a2], b as [b1 b2]. unfold Tuple.eq. simpl.
  rewrite andb_true_iff, !Z.eqb_eq. split.
  - intros [-> ->]. reflexivity.
  - intros [= -> ->]. auto.
Qed.

Lemma Tuple_lt_spec a b :
  Tuple.lt a b = true ↔ a.1 < b.1 ∨ (a.1 = b.1 ∧ a.2 < b.2).
Proof.
  destruct a as [a1 a2], b as [b1 b2]. unfold Tuple.lt. simpl.
  destruct (Z.eqb_spec a1 b1), (Z.eqb_spec a2 b2); simpl;
    rewrite ?Z.ltb_lt; try lia.
  all: split; [discriminate | intros; exfalso; lia].
Qed.

Lemma Tuple_gt_lt a b : Tuple.gt a b = Tuple.lt b a.
Proof.
  destruct a as [a1 a2], b as [b1 b2]. unfold Tuple.gt, Tuple.lt. simpl.
  rewrite !Z.gtb_ltb, (Z.eqb_sym b1 a1), (Z.eqb_sym b2 a2). reflexivity.
Qed.

Lemma Tuple_lt_irrefl a : Tuple.lt a a = false.
Proof.
  apply not_true_iff_false. rewrite Tuple_lt_spec. lia.
Qed.

Lemma Tuple_lt_trans a b c :
  Tuple.lt a b = true → Tuple.lt b c = true → Tuple.lt a c = true.
Proof. rewrite !Tuple_lt_spec. lia. Qed.

(** Exactly one of [a < b], [a == b], [a > b]. *)
Lemma Tuple_trichotomy a b :
  (Tuple.lt a b = true ∧ Tuple.eq a b = false ∧ Tuple.gt a b = false) ∨
  (Tuple.lt a b = false ∧ Tuple.eq a b = true ∧ Tuple.gt a b = false) ∨
  (Tuple.lt a b = false ∧ Tuple.eq a b = false ∧ Tuple.gt a b = true).
Proof.
  rewrite Tuple_gt_lt.
  destruct (Tuple.lt a b) eqn:Hab, (Tuple.eq a b) eqn:Heq,
    (Tuple.lt b a) eqn:Hba; auto; exfalso.
  all: repeat match goal with
    | H : Tuple.lt _ _ = true |- _ => apply Tuple_lt_spec in H
    | H : Tuple.eq _ _ = true |- _ => apply Tuple_eq_spec in H; subst
    | H : Tuple.lt _ _ = false |- _ =>
        apply not_true_iff_false in H; rewrite Tuple_lt_spec in H
    | H : Tuple.eq _ _ = false |- _ =>
        apply not_true_iff_false in H; rewrite Tuple_eq_spec in H
    end; try lia.
  apply Heq. destruct a, b; simpl in *. f_equal; lia.
Qed.

(** [a < b ≤ c] leaves [c < a] false (the running minimum shrinks). *)
Lemma Tuple_lt_le_trans a b c :
  Tuple.lt a b = true → Tuple.lt c b = false → Tuple.lt c a = false.
Proof.
  intros Hab Hcb. apply not_true_iff_false in Hcb.
  apply not_true_iff_false. rewrite Tuple_lt_spec in *. lia.
Qed.

(** [c ≤ b < a] leaves [a < c] false (the running maximum grows). *)
Lemma Tuple_le_lt_trans a b c :
  Tuple.lt b c = false → Tuple.lt b a = true → Tuple.lt a c = false.
Proof.
  intros Hbc Hba. apply not_true_iff_false in Hbc.
  apply not_true_iff_false. rewrite Tuple_lt_spec in *. lia.
Qed.
End tuple_order.

(** ** [Card]: equality, order, hash *)

Lemma Card_key_inj (a b : Card) : Card.key a = Card.key b → a = b.
Proof.
  destruct a as [[] []], b as [[] []]; intros [= ]; reflexivity.
Qed.

Lemma Card_eq_iff (a b : Card) :
  Card.__eq__ a (VCard b) = Ok (VBool true) ↔ a = b.
Proof.
  simpl. split.
  - intros [= H]. apply Card_key_inj, Tuple_eq_spec, H.
  - intros ->. do 2 f_equal. apply Tuple_eq_spec. reflexivity.
Qed.

Lemma Card_lt_trans (a b c : Card) :
  Card.__lt__ a (VCard b) = Ok (VBool true) →
  Card.__lt__ b (VCard c) = Ok (VBool true) →
  Card.__lt__ a (VCard c) = Ok (VBool true).
Proof.
  simpl. intros [= Hab] [= Hbc]. do 2 f_equal. eauto using Tuple_lt_trans.
Qed.

Lemma Card_gt_lt (a b : Card) :
  Card.__gt__ a (VCard b) = Card.__lt__ b (VCard a).
Proof. simpl. rewrite Tuple_gt_lt. reflexivity. Qed.

(** C6. For any two cards [a] and [b], each of [a < b], [a == b] and
    [a > b] evaluates to a boolean, and exactly one of the three is true. *)
Theorem Card_order_trichotomy (a b : Card) :
  ∃ lt eq gt : bool,
    Card.__lt__ a (VCard b) = Ok (VBool lt) ∧
    Card.__eq__ a (VCard b) = Ok (VBool eq) ∧
    Card.__gt__ a (VCard b) = Ok (VBool gt) ∧
    ((lt = true ∧ eq = false ∧ gt = false) ∨
     (lt = false ∧ eq = true ∧ gt = false) ∨
     (lt = false ∧ eq = false ∧ gt = true)).
Proof.
  exists (Tuple.lt (Card.key a) (Card.key b)),
         (Tuple.eq (Card.key a) (Card.key b)),
         (Tuple.gt (Card.key a) (Card.key b)).
  repeat split. apply Tuple_trichotomy.
Qed.

(** The operators on two cards are decided by the left card's method. *)
Lemma Card_operator_method (a b : Card) :
  Object.compare Py_EQ (VCard a) (VCard b) = Card.__eq__ a (VCard b) ∧
  Object.compare Py_LT (VCard a) (VCard b) = Card.__lt__ a (VCard b) ∧
  Object.compare Py_GT (VCard a) (VCard b) = Card.__gt__ a (VCard b).
Proof. repeat split. Qed.

(** C7. Against an operand that is not a [Card], the three comparison
    methods return [NotImplemented]; none of them raises. *)
Theorem Card_compare_other_declines (c : Card) (other : val) :
  isinstance_Card other = false →
  Card.__eq__ c other = Ok VNotImplemented ∧
  Card.__lt__ c other = Ok VNotImplemented ∧
  Card.__gt__ c other = Ok VNotImplemented.
Proof. destruct other; simpl; intros [= ]; auto. Qed.

Lemma Card_compare_other_declines_witness :
  isinstance_Card (VInt 5) = false ∧
  Card.__eq__ (mkCard HEARTS KING) (VInt 5) = Ok VNotImplemented ∧
  Card.__lt__ (mkCard HEARTS KING) (VInt 5) = Ok VNotImplemented ∧
  Card.__gt__ (mkCard HEARTS KING) (VInt 5) = Ok VNotImplemented.
Proof.
  split; [reflexivity |].
  apply (Card_compare_other_declines (mkCard HEARTS KING) (VInt 5)).
  reflexivity.
Defined.

(** What the interpreter makes of the declined comparison: [==] is false,
    the order operators raise [TypeError], whichever side the card is on. *)
Lemma Card_compare_other_outcome (c : Card) (other : val) :
  isinstance_Card other = false →
  Object.compare Py_EQ (VCard c) other = Ok (VBool false) ∧
  Object.compare Py_EQ other (VCard c) = Ok (VBool false) ∧
  Object.compare Py_LT (VCard c) other
    = Raise (Object.unsupported Py_LT (VCard c) other) ∧
  Object.compare Py_GT (VCard c) other
    = Raise (Object.unsupported Py_GT (VCard c) other) ∧
  Object.compare Py_LT other (VCard c)
    = Raise (Object.unsupported Py_LT other (VCard c)) ∧
  Object.compare Py_GT other (VCard c)
    = Raise (Object.unsupported Py_GT other (VCard c)).
Proof. destruct other; simpl; intros [= ]; repeat split. Qed.

(** C8. Two cards that compare equal have the same hash. *)
Theorem Card_hash_eq (a b : Card) :
  Card.__eq__ a (VCard b) = Ok (VBool true) →
  Card.__hash__ a = Card.__hash__ b.
Proof. intros H. apply Card_eq_iff in H. subst. reflexivity. Qed.

Lemma Card_hash_eq_witness :
  Card.__eq__ (mkCard DIAMONDS SEVEN) (VCard (mkCard DIAMONDS SEVEN))
    = Ok (VBool true) ∧
  Card.__hash__ (mkCard DIAMONDS SEVEN) = Card.__hash__ (mkCard DIAMONDS SEVEN).
Proof.
  split; [reflexivity |].
  apply (Card_hash_eq (mkCard DIAMONDS SEVEN) (mkCard DIAMONDS SEVEN)).
  reflexivity.
Defined.

(** ** Running computations *)

Section running.
Implicit Types (σ : gmap loc (list val)) (l : loc) (items : list val).

Lemma bind_ok {A B} (m : M A) (k : A → M B) σ a σ' :
  m σ = (Ok a, σ') → (m ≫= k) σ = k a σ'.
Proof. unfold mbind, M_bind. intros ->. reflexivity. Qed.

Lemma bind_raise {A B} (m : M A) (k : A → M B) σ e σ' :
  m σ = (Raise e, σ') → (m ≫= k) σ = (Raise e, σ').
Proof. unfold mbind, M_bind. intros ->. reflexivity. Qed.

Lemma load_ok σ l items :
  σ !! l = Some items → Store.load l σ = (Ok items, σ).
Proof. unfold Store.load. intros ->. reflexivity. Qed.

Lemma alloc_ok σ items :
  ∃ l, Store.alloc items σ = (Ok l, <[l := items]> σ) ∧ σ !! l = None.
Proof.
  exists (fresh (dom σ)). split; [reflexivity |].
  apply not_elem_of_dom, is_fresh.
Qed.

Lemma is_true_ok σ l items :
  σ !! l = Some items →
  PyList.is_true l σ
    = (Ok (match items with [] => false | _ :: _ => true end), σ).
Proof.
  intros H. unfold PyList.is_true.
  erewrite bind_ok by (apply load_ok, H). reflexivity.
Qed.

Lemma len_ok σ l items :
  σ !! l = Some items →
  PyList.len l σ = (Ok (Z.of_nat (length items)), σ).
Proof.
  intros H. unfold PyList.len.
  erewrite bind_ok by (apply load_ok, H). reflexivity.
Qed.

Lemma append_ok σ l items v :
  σ !! l = Some items →
  PyList.append l v σ = (Ok (), <[l := items ++ [v]]> σ).
Proof.
  intros H. unfold PyList.append.
  erewrite bind_ok by (apply load_ok, H). reflexivity.
Qed.

Lemma copy_ok σ l items :
  σ !! l = Some items →
  ∃ l', PyList.copy l σ = (Ok l', <[l' := items]> σ) ∧ σ !! l' = None.
Proof.
  intros H. unfold PyList.copy.
  erewrite bind_ok by (apply load_ok, H). apply alloc_ok.
Qed.

(** Indices from the front and from the back. *)
Lemma index_of_front (n : nat) (i : Z) :
  (0 ≤ i < Z.of_nat n)%Z → PyList.index_of n i = Some (Z.to_nat i).
Proof.
  intros Hi. unfold PyList.index_of.
  destruct (Z.ltb_spec i 0); [lia |].
  destruct (Z.leb_spec 0 i), (Z.ltb_spec i (Z.of_nat n));
    simpl; try lia; reflexivity.
Qed.

Lemma index_of_back (n : nat) (k : Z) :
  (1 ≤ k ≤ Z.of_nat n)%Z →
  PyList.index_of n (- k) = Some (n - Z.to_nat k)%nat.
Proof.
  intros Hk. unfold PyList.index_of.
  destruct (Z.ltb_spec (- k) 0); [| lia].
  destruct (Z.leb_spec 0 (- k + Z.of_nat n)),
    (Z.ltb_spec (- k + Z.of_nat n) (Z.of_nat n)); simpl; try lia.
  f_equal. lia.
Qed.


Lemma getitem_ok σ l items i n v :
  σ !! l = Some items →
  PyList.index_of (length items) i = Some n → items !! n = Some v →
  PyList.getitem l i σ = (Ok v, σ).
Proof.
  intros H Hi Hv. unfold PyList.getitem.
  erewrite bind_ok by (apply load_ok, H).
  rewrite Hi. simpl. rewrite Hv. reflexivity.
Qed.


Lemma pop_front_ok σ l top rest :
  σ !! l = Some (top :: rest) →
  PyList.pop l 0 σ = (Ok top, <[l := rest]> σ).
Proof.
  intros H. unfold PyList.pop.
  erewrite bind_ok by (apply load_ok, H).
  rewrite index_of_front by (simpl; lia). reflexivity.
Qed.

Lemma max_ok σ l items :
  σ !! l = Some items → PyList.max l σ = (Builtins.max items, σ).
Proof.
  intros H. unfold PyList.max.
  erewrite bind_ok by (apply load_ok, H). reflexivity.
Qed.

Lemma min_ok σ l items :
  σ !! l = Some items → PyList.min l σ = (Builtins.min items, σ).
Proof.
  intros H. unfold PyList.min.
  erewrite bind_ok by (apply load_ok, H). reflexivity.
Qed.
End running.

(** ** [max] and [min] over cards *)

Section extremes.
Implicit Types (a b c m : Card) (cs seen : list Card) (op : cmpop).

(** On two cards a comparison used as a condition is the boolean that the
    left card's method computes. *)
Lemma compare_bool_cards op a b :
  Object.compare_bool op (VCard a) (VCard b)
  = Ok (match op with
        | Py_EQ => Tuple.eq (Card.key a) (Card.key b)
        | Py_LT => Tuple.lt (Card.key a) (Card.key b)
        | Py_GT => Tuple.gt (Card.key a) (Card.key b)
        end).
Proof. destruct op; reflexivity. Qed.

Lemma compare_bool_irrefl op a :
  op ≠ Py_EQ → Object.compare_bool op (VCard a) (VCard a) = Ok false.
Proof.
  intros Hop. rewrite compare_bool_cards. f_equal.
  destruct op; [done | |]; rewrite ?Tuple_gt_lt; apply Tuple_lt_irrefl.
Qed.

(** When [item] beats the running best [b], whatever did not beat [b]
    does not beat [item]. *)
Lemma compare_bool_chain op item b c :
  op ≠ Py_EQ →
  Object.compare_bool op (VCard item) (VCard b) = Ok true →
  Object.compare_bool op (VCard c) (VCard b) = Ok false →
  Object.compare_bool op (VCard c) (VCard item) = Ok false.
Proof.
  intros Hop. rewrite !compare_bool_cards.
  destruct op; [done | |]; rewrite ?Tuple_gt_lt;
    intros [= H1] [= H2]; f_equal.
  - eapply Tuple_lt_le_trans; eauto.
  - eapply Tuple_le_lt_trans; eauto.
Qed.

(** The loop returns a card that was met and that no card met beats. *)
Lemma best_loop_cards op cs : ∀ b seen,
  op ≠ Py_EQ →
  b ∈ seen →
  (∀ c, c ∈ seen → Object.compare_bool op (VCard c) (VCard b) = Ok false) →
  ∃ m, Builtins.best_loop op (VCard b) (VCard <$> cs) = Ok (VCard m) ∧
       m ∈ seen ++ cs ∧
       ∀ c, c ∈ seen ++ cs →
            Object.compare_bool op (VCard c) (VCard m) = Ok false.
Proof.
  induction cs as [| item rest IH]; intros b seen Hop Hb Hseen.
  - exists b. rewrite app_nil_r. auto.
  - simpl Builtins.best_loop.
    replace (seen ++ item :: rest) with ((seen ++ [item]) ++ rest)
      by (rewrite <- app_assoc; reflexivity).
    destruct (Object.compare_bool op (VCard item) (VCard b))
      as [[|] |] eqn:Hcmp.
    + apply IH; [done | set_solver |].
      intros c [Hc | ->%list_elem_of_singleton]%elem_of_app.
      * eauto using compare_bool_chain.
      * by apply compare_bool_irrefl.
    + apply IH; [done | set_solver |].
      intros c [Hc | ->%list_elem_of_singleton]%elem_of_app; auto.
    + rewrite compare_bool_cards in Hcmp. discriminate.
Qed.

Lemma max_cards b cs :
  ∃ m, Builtins.max (VCard <$> b :: cs) = Ok (VCard m) ∧
       m ∈ b :: cs ∧
       ∀ c, c ∈ b :: cs → Card.__gt__ c (VCard m) = Ok (VBool false).
Proof.
  destruct (best_loop_cards Py_GT cs b [b]) as (m & Hm & Hin & Hbest).
  - done.
  - set_solver.
  - intros c ->%list_elem_of_singleton. by apply compare_bool_irrefl.
  - exists m. split; [exact Hm |]. split; [exact Hin |].
    intros c Hc. specialize (Hbest c Hc).
    rewrite compare_bool_cards in Hbest. simpl. congruence.
Qed.

Lemma min_cards b cs :
  ∃ m, Builtins.min (VCard <$> b :: cs) = Ok (VCard m) ∧
       m ∈ b :: cs ∧
       ∀ c, c ∈ b :: cs → Card.__lt__ c (VCard m) = Ok (VBool false).
Proof.
  destruct (best_loop_cards Py_LT cs b [b]) as (m & Hm & Hin & Hbest).
  - done.
  - set_solver.
  - intros c ->%list_elem_of_singleton. by apply compare_bool_irrefl.
  - exists m. split; [exact Hm |]. split; [exact Hin |].
    intros c Hc. specialize (Hbest c Hc).
    rewrite compare_bool_cards in Hbest. simpl. congruence.
Qed.
End extremes.

(** ** [Deck]: drawing, extremes, adding, indexing *)

Lemma Deck_max_ok (self : Deck) (σ : gmap loc (list val)) (items : list val) :
  σ !! _cards self = Some items →
  Deck.max self σ
  = (match items with [] => Ok VNone | _ :: _ => Builtins.max items end, σ).
Proof.
  intros H. unfold Deck.max.
  erewrite bind_ok by (apply is_true_ok, H).
  destruct items; [reflexivity |]. apply max_ok, H.
Qed.

Lemma Deck_min_ok (self : Deck) (σ : gmap loc (list val)) (items : list val) :
  σ !! _cards self = Some items →
  Deck.min self σ
  = (match items with [] => Ok VNone | _ :: _ => Builtins.min items end, σ).
Proof.
  intros H. unfold Deck.min.
  erewrite bind_ok by (apply is_true_ok, H).
  destruct items; [reflexivity |]. apply min_ok, H.
Qed.

Lemma Deck_draw_ok (self : Deck) (σ : gmap loc (list val)) (items : list val) :
  σ !! _cards self = Some items →
  Deck.draw self σ
  = match items with
    | [] => (Ok VNone, σ)
    | top :: rest => (Ok top, <[_cards self := rest]> σ)
    end.
Proof.
  intros H. unfold Deck.draw.
  erewrite bind_ok by (apply is_true_ok, H).
  destruct items; [reflexivity |]. apply pop_front_ok, H.
Qed.

(** On a deck that holds cards, [max()] and [min()] return cards of the
    deck that bound it from above and from below. *)
Lemma Deck_extremes_ok
    (self : Deck) (σ : gmap loc (list val)) (cs : list Card) :
  σ !! _cards self = Some (VCard <$> cs) →
  cs ≠ [] →
  ∃ hi lo,
    Deck.max self σ = (Ok (VCard hi), σ) ∧
    Deck.min self σ = (Ok (VCard lo), σ) ∧
    hi ∈ cs ∧ lo ∈ cs ∧
    (∀ c, c ∈ cs → Card.__gt__ c (VCard hi) = Ok (VBool false)) ∧
    (∀ c, c ∈ cs → Card.__lt__ c (VCard lo) = Ok (VBool false)).
Proof.
  intros H Hne. destruct cs as [| b cs]; [done |].
  destruct (max_cards b cs) as (hi & Hhi & Hhi_in & Hhi_top).
  destruct (min_cards b cs) as (lo & Hlo & Hlo_in & Hlo_bot).
  exists hi, lo.
  rewrite (Deck_max_ok _ _ _ H), (Deck_min_ok _ _ _ H).
  change (VCard <$> b :: cs) with (VCard b :: (VCard <$> cs)) in *.
  rewrite Hhi, Hlo. auto 10.
Qed.

(** C3. On a deck of [N ≥ 1] cards, [draw()] returns the card at position 0
    and leaves the [N - 1] cards of the former positions [1 .. N-1], in the
    same order. *)
Theorem Deck_draw_front
    (self : Deck) (σ : gmap loc (list val)) (items : list val) :
  σ !! _cards self = Some items →
  1 ≤ length items →
  ∃ top rest,
    items !! 0 = Some top ∧
    Deck.draw self σ = (Ok top, <[_cards self := rest]> σ) ∧
    <[_cards self := rest]> σ !! _cards self = Some rest ∧
    length rest = length items - 1 ∧
    ∀ i, rest !! i = items !! S i.
Proof.
  intros H Hlen. destruct items as [| top rest]; [simpl in Hlen; lia |].
  exists top, rest. split; [reflexivity |].
  split; [apply (Deck_draw_ok _ _ _ H) |].
  split; [apply lookup_insert_eq |].
  split; [simpl; lia | reflexivity].
Qed.

Lemma Deck_draw_front_witness :
  ∃ top rest,
    (VCard <$> Sample.hand) !! 0 = Some top ∧
    Deck.draw Sample.deck (Sample.store_of Sample.hand)
    = (Ok top, <[_cards Sample.deck := rest]> (Sample.store_of Sample.hand)) ∧
    <[_cards Sample.deck := rest]> (Sample.store_of Sample.hand)
      !! _cards Sample.deck = Some rest ∧
    length rest = length (VCard <$> Sample.hand) - 1 ∧
    ∀ i, rest !! i = (VCard <$> Sample.hand) !! S i.
Proof.
  apply (Deck_draw_front Sample.deck (Sample.store_of Sample.hand)
           (VCard <$> Sample.hand)); [reflexivity | simpl; lia].
Defined.

(** C4. On an empty deck [draw()], [max()] and [min()] return [None] and
    leave the store as it is; on a deck that holds cards, [max()] and [min()]
    return cards of the deck, the first one not exceeded by any card of the
    deck, the second one not undercut by any. *)
Theorem Deck_empty_and_extremes
    (self : Deck) (σ : gmap loc (list val)) (cs : list Card) :
  σ !! _cards self = Some (VCard <$> cs) →
  (cs = [] →
     Deck.draw self σ = (Ok VNone, σ) ∧
     Deck.max self σ = (Ok VNone, σ) ∧
     Deck.min self σ = (Ok VNone, σ)) ∧
  (cs ≠ [] →
     ∃ hi lo,
       Deck.max self σ = (Ok (VCard hi), σ) ∧
       Deck.min self σ = (Ok (VCard lo), σ) ∧
       hi ∈ cs ∧ lo ∈ cs ∧
       (∀ c, c ∈ cs → Card.__gt__ c (VCard hi) = Ok (VBool false)) ∧
       (∀ c, c ∈ cs → Card.__lt__ c (VCard lo) = Ok (VBool false))).
Proof.
  intros H. split.
  - intros ->.
    rewrite (Deck_draw_ok _ _ _ H), (Deck_max_ok _ _ _ H),
      (Deck_min_ok _ _ _ H). auto.
  - apply Deck_extremes_ok, H.
Qed.

Lemma Deck_empty_and_extremes_witness :
  (Deck.draw Sample.deck (Sample.store_of []) = (Ok VNone, Sample.store_of [])
   ∧ Deck.max Sample.deck (Sample.store_of []) = (Ok VNone, Sample.store_of [])
   ∧ Deck.min Sample.deck (Sample.store_of []) = (Ok VNone, Sample.store_of []))
  ∧
  (∃ hi lo,
     Deck.max Sample.deck (Sample.store_of Sample.hand)
     = (Ok (VCard hi), Sample.store_of Sample.hand) ∧
     Deck.min Sample.deck (Sample.store_of Sample.hand)
     = (Ok (VCard lo), Sample.store_of Sample.hand) ∧
     hi ∈ Sample.hand ∧ lo ∈ Sample.hand ∧
     (∀ c, c ∈ Sample.hand → Card.__gt__ c (VCard hi) = Ok (VBool false)) ∧
     (∀ c, c ∈ Sample.hand → Card.__lt__ c (VCard lo) = Ok (VBool false))).
Proof.
  split.
  - apply (Deck_empty_and_extremes Sample.deck (Sample.store_of []) []);
      reflexivity.
  - apply (Deck_empty_and_extremes Sample.deck
             (Sample.store_of Sample.hand) Sample.hand);
      [reflexivity | discriminate].
Defined.

Lemma Deck_add_card_guard
    (self : Deck) (σ : gmap loc (list val)) (items : list val) (x : val) :
  σ !! _cards self = Some items →
  (isinstance_Card x = false →
     Deck.add_card self x σ
     = (Raise (TypeError "Only Card instances can be added to the deck"), σ))
  ∧
  (isinstance_Card x = true →
     Deck.add_card self x σ = (Ok self, <[_cards self := items ++ [x]]> σ)).
Proof.
  intros H. unfold Deck.add_card. split; intros ->; simpl.
  - reflexivity.
  - erewrite bind_ok by (apply append_ok, H). reflexivity.
Qed.

(** C5. [add_card(x)] with [x] not a [Card] raises [TypeError] and leaves
    the whole store, hence the deck, as it was; with a [Card] it appends the
    card at the end of the deck's list and returns the deck itself. *)
Theorem Deck_add_card_effect
    (self : Deck) (σ : gmap loc (list val)) (items : list val) (x : val) :
  σ !! _cards self = Some items →
  (isinstance_Card x = false →
     Deck.add_card self x σ
     = (Raise (TypeError "Only Card instances can be added to the deck"), σ))
  ∧
  (isinstance_Card x = true →
     Deck.add_card self x σ = (Ok self, <[_cards self := items ++ [x]]> σ) ∧
     <[_cards self := items ++ [x]]> σ !! _cards self = Some (items ++ [x])).
Proof.
  intros H. destruct (Deck_add_card_guard self σ items x H) as [Hno Hyes].
  split; [exact Hno |].
  intros Hx. split; [by apply Hyes | apply lookup_insert_eq].
Qed.

Lemma Deck_add_card_effect_witness :
  Deck.add_card Sample.deck (VStr "joker") (Sample.store_of Sample.hand)
  = (Raise (TypeError "Only Card instances can be added to the deck"),
     Sample.store_of Sample.hand)
  ∧
  Deck.add_card Sample.deck (VCard (mkCard CLUBS ACE))
    (Sample.store_of Sample.hand)
  = (Ok Sample.deck,
     <[_cards Sample.deck :=
         (VCard <$> Sample.hand) ++ [VCard (mkCard CLUBS ACE)]]>
       (Sample.store_of Sample.hand)).
Proof.
  split.
  - apply (Deck_add_card_effect Sample.deck (Sample.store_of Sample.hand)
             (VCard <$> Sample.hand) (VStr "joker")); reflexivity.
  - apply (Deck_add_card_effect Sample.deck (Sample.store_of Sample.hand)
             (VCard <$> Sample.hand) (VCard (mkCard CLUBS ACE)));
      reflexivity.
Defined.

(** C10. On a deck of [N ≥ 1] cards and for [1 ≤ k ≤ N], [deck[-k]] returns
    the card at position [N - k] and does not raise. *)
Theorem Deck_getitem_negative
    (self : Deck) (σ : gmap loc (list val)) (items : list val) (k : Z) :
  σ !! _cards self = Some items →
  (1 ≤ k ≤ Z.of_nat (length items))%Z →
  ∃ v, items !! (length items - Z.to_nat k) = Some v ∧
       Deck.__getitem__ self (- k) σ = (Ok v, σ).
Proof.
  intros H Hk.
  destruct (lookup_lt_is_Some_2 items (length items - Z.to_nat k))
    as [v Hv]; [lia |].
  exists v. split; [exact Hv |].
  unfold Deck.__getitem__.
  eapply getitem_ok; [exact H | by apply index_of_back | exact Hv].
Qed.

Lemma Deck_getitem_negative_witness :
  ∃ v, (VCard <$> Sample.hand)
         !! (length (VCard <$> Sample.hand) - Z.to_nat 2) = Some v ∧
       Deck.__getitem__ Sample.deck (- 2) (Sample.store_of Sample.hand)
       = (Ok v, Sample.store_of Sample.hand).
Proof.
  apply (Deck_getitem_negative Sample.deck (Sample.store_of Sample.hand)
           (VCard <$> Sample.hand) 2); [reflexivity | simpl; lia].
Defined.


(** ** [Deck]: construction *)

Lemma Deck_init_unshuffled_ok
    (randbelow : nat → nat) (σ : gmap loc (list val)) :
  ∃ self,
    Deck.__init__ randbelow false σ
    = (Ok self, <[_cards self := VCard <$> Deck.all_cards]> σ) ∧
    σ !! _cards self = None.
Proof.
  destruct (alloc_ok σ (VCard <$> Deck.all_cards)) as (l & Hl & Hfresh).
  exists (mkDeck l). split; [| exact Hfresh].
  unfold Deck.__init__.
  erewrite bind_ok by exact Hl. reflexivity.
Qed.

(** The position of a member in the iteration order of its class. *)
Lemma CardSuit_members_lookup (suit : CardSuit) :
  CardSuit.members !! Z.to_nat (CardSuit.value suit - 1) = Some suit.
Proof. destruct suit; reflexivity. Qed.

Lemma CardRank_members_lookup (rank : CardRank) :
  CardRank.members !! Z.to_nat (CardRank.value rank - 2) = Some rank.
Proof. destruct rank; reflexivity. Qed.

(** C2. A deck built with [shuffle=False] is a new list of 52 cards in which
    every pair of a suit and a rank occurs exactly once, at the position
    given by suit first and rank second (position 0 is the Two of Clubs);
    the first [draw()] on it returns the Two of Clubs and leaves 51 cards. *)
Theorem Deck_unshuffled_contents
    (randbelow : nat → nat) (σ : gmap loc (list val)) :
  ∃ self σ',
    Deck.__init__ randbelow false σ = (Ok self, σ') ∧
    σ !! _cards self = None ∧
    σ' !! _cards self = Some (VCard <$> Deck.all_cards) ∧
    length Deck.all_cards = 52 ∧
    (∀ suit rank,
       count_occ Card_eq_dec Deck.all_cards (mkCard suit rank) = 1) ∧
    (∀ suit rank,
       Deck.all_cards !! (13 * Z.to_nat (CardSuit.value suit - 1)
                          + Z.to_nat (CardRank.value rank - 2))
       = Some (mkCard suit rank)) ∧
    ∃ σ'',
      Deck.draw self σ' = (Ok (VCard (mkCard CLUBS TWO)), σ'') ∧
      Card.get_display_name (mkCard CLUBS TWO) = "Two of Clubs"%string ∧
      Deck.__len__ self σ'' = (Ok 51%Z, σ'').
Proof.
  destruct (Deck_init_unshuffled_ok randbelow σ) as (self & Hinit & Hfresh).
  exists self, (<[_cards self := VCard <$> Deck.all_cards]> σ).
  split; [exact Hinit |]. split; [exact Hfresh |].
  split; [apply lookup_insert_eq |].
  split; [reflexivity |].
  split; [intros [] []; vm_compute; reflexivity |].
  split; [intros [] []; vm_compute; reflexivity |].
  eexists. split; [| split; [vm_compute; reflexivity |]].
  - erewrite Deck_draw_ok by apply lookup_insert_eq. reflexivity.
  - unfold Deck.__len__. erewrite len_ok by apply lookup_insert_eq.
    reflexivity.
Qed.

(** The same enumeration, read as nested loops: the cards of each suit form
    a block of thirteen, in rank order. *)
Lemma Deck_all_cards_blocks :
  Deck.all_cards
  = flat_map (λ suit, map (mkCard suit) CardRank.members) CardSuit.members.
Proof. reflexivity. Qed.

(** The opening of [main]: an unshuffled deck, the top card drawn and then
    added back. The deck has 52 cards again, the Two of Clubs is now the
    last one, and the Three of Clubs is on top. *)
Example draw_then_add_back (randbelow : nat → nat) :
  (deck ← Deck.__init__ randbelow false;
   top_card ← Deck.draw deck;
   Deck.add_card deck top_card;;
   n ← Deck.__len__ deck;
   first ← Deck.__getitem__ deck 0;
   last ← Deck.__getitem__ deck (-1);
   mret (top_card, n, first, last)) ∅
  = (Ok (VCard (mkCard CLUBS TWO), 52%Z,
         VCard (mkCard CLUBS THREE), VCard (mkCard CLUBS TWO)),
     {[ 1%positive :=
          VCard <$> (drop 1 Deck.all_cards ++ [mkCard CLUBS TWO]) ]}).
Proof. vm_compute. reflexivity. Qed.

(** ** [Deck]: the [cards] property *)

Lemma Deck_cards_ok
    (self : Deck) (σ : gmap loc (list val)) (items : list val) :
  σ !! _cards self = Some items →
  ∃ s, Deck.cards self σ = (Ok s, <[s := items]> σ) ∧
       σ !! s = None ∧ s ≠ _cards self.
Proof.
  intros H. destruct (copy_ok σ (_cards self) items H) as (s & Hs & Hfresh).
  exists s. split; [exact Hs |]. split; [exact Hfresh |].
  intros ->. congruence.
Qed.

(** C9. [cards] returns a list object that did not exist before and holds
    the deck's items in order; the deck is left as it was, so a second call
    returns another new list with the same items; and overwriting one of
    the two returned lists with any items at all (which is what every
    mutating list method does to its own list) changes neither the deck's
    list nor the other returned list. *)
Theorem Deck_cards_snapshot
    (self : Deck) (σ : gmap loc (list val)) (items : list val) :
  σ !! _cards self = Some items →
  ∃ s1 σ1 s2 σ2,
    Deck.cards self σ = (Ok s1, σ1) ∧
    Deck.cards self σ1 = (Ok s2, σ2) ∧
    σ !! s1 = None ∧ σ1 !! s2 = None ∧
    s1 ≠ _cards self ∧ s2 ≠ _cards self ∧ s1 ≠ s2 ∧
    σ1 !! s1 = Some items ∧ σ1 !! _cards self = Some items ∧
    σ2 !! s1 = Some items ∧ σ2 !! s2 = Some items ∧
    σ2 !! _cards self = Some items ∧
    (∀ items' σ3,
       Store.store s1 items' σ2 = (Ok (), σ3) →
       σ3 !! _cards self = Some items ∧ σ3 !! s2 = Some items) ∧
    (∀ items' σ3,
       Store.store s2 items' σ2 = (Ok (), σ3) →
       σ3 !! _cards self = Some items ∧ σ3 !! s1 = Some items).
Proof.
  intros H.
  destruct (Deck_cards_ok self σ items H) as (s1 & Hs1 & Hfresh1 & Hne1).
  assert (H1 : <[s1 := items]> σ !! _cards self = Some items)
    by (rewrite lookup_insert_ne; done).
  destruct (Deck_cards_ok self _ items H1) as (s2 & Hs2 & Hfresh2 & Hne2).
  assert (Hne12 : s1 ≠ s2).
  { intros ->. rewrite lookup_insert_eq in Hfresh2. discriminate. }
  exists s1, (<[s1 := items]> σ), s2, (<[s2 := items]> (<[s1 := items]> σ)).
  split; [exact Hs1 |]. split; [exact Hs2 |].
  split; [exact Hfresh1 |]. split; [exact Hfresh2 |].
  split; [exact Hne1 |]. split; [exact Hne2 |]. split; [exact Hne12 |].
  split; [apply lookup_insert_eq |]. split; [exact H1 |].
  split; [rewrite lookup_insert_ne by done; apply lookup_insert_eq |].
  split; [apply lookup_insert_eq |].
  split; [rewrite lookup_insert_ne by done; exact H1 |].
  split; intros items' σ3 [= <-].
  - split; rewrite lookup_insert_ne by done.
    + rewrite lookup_insert_ne by done. exact H1.
    + apply lookup_insert_eq.
  - split; rewrite lookup_insert_ne by done.
    + rewrite lookup_insert_ne by done. exact H1.
    + rewrite lookup_insert_ne by done. apply lookup_insert_eq.
Qed.

Lemma Deck_cards_snapshot_witness :
  ∃ s1 σ1 s2 σ2,
    Deck.cards Sample.deck (Sample.store_of Sample.hand) = (Ok s1, σ1) ∧
    Deck.cards Sample.deck σ1 = (Ok s2, σ2) ∧
    Sample.store_of Sample.hand !! s1 = None ∧ σ1 !! s2 = None ∧
    s1 ≠ _cards Sample.deck ∧ s2 ≠ _cards Sample.deck ∧ s1 ≠ s2 ∧
    σ1 !! s1 = Some (VCard <$> Sample.hand) ∧
    σ1 !! _cards Sample.deck = Some (VCard <$> Sample.hand) ∧
    σ2 !! s1 = Some (VCard <$> Sample.hand) ∧
    σ2 !! s2 = Some (VCard <$> Sample.hand) ∧
    σ2 !! _cards Sample.deck = Some (VCard <$> Sample.hand) ∧
    (∀ items' σ3,
       Store.store s1 items' σ2 = (Ok (), σ3) →
       σ3 !! _cards Sample.deck = Some (VCard <$> Sample.hand) ∧
       σ3 !! s2 = Some (VCard <$> Sample.hand)) ∧
    (∀ items' σ3,
       Store.store s2 items' σ2 = (Ok (), σ3) →
       σ3 !! _cards Sample.deck = Some (VCard <$> Sample.hand) ∧
       σ3 !! s1 = Some (VCard <$> Sample.hand)).
Proof.
  apply (Deck_cards_snapshot Sample.deck (Sample.store_of Sample.hand)
           (VCard <$> Sample.hand)).
  reflexivity.
Defined.

(** The list methods that mutate write the list they are called on and no
    other; a returned snapshot changed through them leaves the deck alone. *)
Lemma PyList_append_frame
    (l l' : loc) (v : val) (σ σ' : gmap loc (list val)) (r : result ()) :
  PyList.append l v σ = (r, σ') → l' ≠ l → σ' !! l' = σ !! l'.
Proof.
  unfold PyList.append, Store.load, Store.store, mbind, M_bind.
  destruct (σ !! l); intros [= <- <-] Hne; [| reflexivity].
  by rewrite lookup_insert_ne.
Qed.

Lemma PyList_pop_frame
    (l l' : loc) (i : Z) (σ σ' : gmap loc (list val)) (r : result val) :
  PyList.pop l i σ = (r, σ') → l' ≠ l → σ' !! l' = σ !! l'.
Proof.
  unfold PyList.pop, Store.load, Store.store, raise, mbind, M_bind, mret,
    M_ret.
  destruct (σ !! l) as [[| x items] |]; try (intros [= <- <-]; reflexivity).
  destruct (PyList.index_of _ i) as [n |];
    [destruct (_ !! n) |]; intros [= <- <-] Hne; try reflexivity.
  by rewrite lookup_insert_ne.
Qed.

Example snapshot_append_leaves_deck :
  ∃ s σ1 σ2,
    Deck.cards Sample.deck (Sample.store_of Sample.pair) = (Ok s, σ1) ∧
    PyList.append s (VInt 7) σ1 = (Ok (), σ2) ∧
    σ2 !! s = Some ((VCard <$> Sample.pair) ++ [VInt 7]) ∧
    σ2 !! _cards Sample.deck = Some (VCard <$> Sample.pair).
Proof. do 3 eexists. vm_compute. repeat split. Qed.

(** ** [Deck]: iteration *)

Lemma Deck_iter_empty (self : Deck) (σ : gmap loc (list val)) :
  σ !! _cards self = Some [] → Deck.__iter__ self σ = (Ok [], σ).
Proof.
  intros H. unfold Deck.__iter__.
  erewrite bind_ok by (apply (Deck_max_ok _ _ _ H)).
  erewrite bind_ok by (apply (Deck_min_ok _ _ _ H)).
  reflexivity.
Qed.

Lemma Deck_iter_cards
    (self : Deck) (σ : gmap loc (list val)) (hi lo : Card) :
  Deck.max self σ = (Ok (VCard hi), σ) →
  Deck.min self σ = (Ok (VCard lo), σ) →
  Deck.__iter__ self σ = (Ok [VCard hi; VCard lo], σ).
Proof.
  intros Hhi Hlo. unfold Deck.__iter__.
  erewrite bind_ok by exact Hhi. erewrite bind_ok by exact Hlo.
  reflexivity.
Qed.

(** On a two-card deck whose first card is not less than the second, the
    extremes are the two cards in the order they lie in the deck. *)
Lemma Deck_iter_pair
    (self : Deck) (σ : gmap loc (list val)) (a b : Card) :
  σ !! _cards self = Some [VCard a; VCard b] →
  Card.__lt__ a (VCard b) = Ok (VBool false) →
  Deck.__iter__ self σ = (Ok [VCard a; VCard b], σ).
Proof.
  intros H [= Hab].
  assert (Hmax : Deck.max self σ = (Ok (VCard a), σ)).
  { rewrite (Deck_max_ok _ _ _ H).
    unfold Builtins.max, Builtins.best_loop.
    rewrite compare_bool_cards, Tuple_gt_lt, Hab. reflexivity. }
  destruct (Tuple.lt (Card.key b) (Card.key a)) eqn:Hba.
  - apply Deck_iter_cards; [exact Hmax |].
    rewrite (Deck_min_ok _ _ _ H).
    unfold Builtins.min, Builtins.best_loop.
    rewrite compare_bool_cards, Hba. reflexivity.
  - assert (a = b) as <-.
    { apply Card_key_inj, Tuple_eq_spec.
      destruct (Tuple_trichotomy (Card.key a) (Card.key b))
        as [(? & _) | [(_ & ? & _) | (_ & _ & Hgt)]];
        [congruence | done | rewrite Tuple_gt_lt in Hgt; congruence]. }
    apply Deck_iter_cards; [exact Hmax |].
    rewrite (Deck_min_ok _ _ _ H).
    unfold Builtins.min, Builtins.best_loop.
    rewrite compare_bool_cards, Hba. reflexivity.
Qed.

(** C1, as the code has it. Iterating an empty deck yields nothing;
    iterating a deck that holds cards yields exactly two values, the result
    of [max()] and then the result of [min()]. The values yielded are the
    full contents of the deck, in order, exactly when the deck is empty or
    holds two cards of which the first is not less than the second; every
    other deck is not enumerated. *)
Theorem Deck_iter_extremes
    (self : Deck) (σ : gmap loc (list val)) (cs : list Card) :
  σ !! _cards self = Some (VCard <$> cs) →
  (cs = [] → Deck.__iter__ self σ = (Ok [], σ)) ∧
  (cs ≠ [] →
     ∃ hi lo,
       Deck.__iter__ self σ = (Ok [VCard hi; VCard lo], σ) ∧
       Deck.max self σ = (Ok (VCard hi), σ) ∧
       Deck.min self σ = (Ok (VCard lo), σ) ∧
       hi ∈ cs ∧ lo ∈ cs ∧
       (∀ c, c ∈ cs → Card.__gt__ c (VCard hi) = Ok (VBool false)) ∧
       (∀ c, c ∈ cs → Card.__lt__ c (VCard lo) = Ok (VBool false))) ∧
  (Deck.__iter__ self σ = (Ok (VCard <$> cs), σ) ↔
     cs = [] ∨
     ∃ a b, cs = [a; b] ∧ Card.__lt__ a (VCard b) = Ok (VBool false)).
Proof.
  intros H.
  assert (Hfull : cs ≠ [] →
     ∃ hi lo,
       Deck.__iter__ self σ = (Ok [VCard hi; VCard lo], σ) ∧
       Deck.max self σ = (Ok (VCard hi), σ) ∧
       Deck.min self σ = (Ok (VCard lo), σ) ∧
       hi ∈ cs ∧ lo ∈ cs ∧
       (∀ c, c ∈ cs → Card.__gt__ c (VCard hi) = Ok (VBool false)) ∧
       (∀ c, c ∈ cs → Card.__lt__ c (VCard lo) = Ok (VBool false))).
  { intros Hne.
    destruct (Deck_extremes_ok self σ cs H Hne)
      as (hi & lo & Hhi & Hlo & Hrest).
    exists hi, lo. split; [by apply Deck_iter_cards | auto]. }
  split; [intros ->; by apply Deck_iter_empty |].
  split; [exact Hfull |].
  split.
  - intros Hiter. destruct cs as [| a cs]; [by left | right].
    destruct Hfull as (hi & lo & Hhl & _ & _ & _ & _ & Htop & _); [done |].
    rewrite Hhl in Hiter.
    destruct cs as [| b [| ? ?]]; simpl in Hiter; simplify_eq.
    exists a, b. split; [reflexivity |].
    rewrite <- Card_gt_lt. apply Htop. set_solver.
  - intros [-> | (a & b & -> & Hab)].
    + by apply Deck_iter_empty.
    + by apply Deck_iter_pair.
Qed.

Lemma Deck_iter_extremes_witness :
  (Deck.__iter__ Sample.deck (Sample.store_of []) = (Ok [], Sample.store_of []))
  ∧
  (∃ hi lo,
     Deck.__iter__ Sample.deck (Sample.store_of Sample.hand)
     = (Ok [VCard hi; VCard lo], Sample.store_of Sample.hand) ∧
     Deck.max Sample.deck (Sample.store_of Sample.hand)
     = (Ok (VCard hi), Sample.store_of Sample.hand) ∧
     Deck.min Sample.deck (Sample.store_of Sample.hand)
     = (Ok (VCard lo), Sample.store_of Sample.hand) ∧
     hi ∈ Sample.hand ∧ lo ∈ Sample.hand ∧
     (∀ c, c ∈ Sample.hand → Card.__gt__ c (VCard hi) = Ok (VBool false)) ∧
     (∀ c, c ∈ Sample.hand → Card.__lt__ c (VCard lo) = Ok (VBool false)))
  ∧
  (Deck.__iter__ Sample.deck (Sample.store_of Sample.hand)
   ≠ (Ok (VCard <$> Sample.hand), Sample.store_of Sample.hand)).
Proof.
  pose proof (Deck_iter_extremes Sample.deck (Sample.store_of []) []
                eq_refl) as Hempty.
  pose proof (Deck_iter_extremes Sample.deck (Sample.store_of Sample.hand)
                Sample.hand eq_refl) as Hhand.
  split; [apply (proj1 Hempty); reflexivity |].
  split; [apply (proj1 (proj2 Hhand)); discriminate |].
  intros Hiter. apply (proj2 (proj2 Hhand)) in Hiter.
  destruct Hiter as [Hnil | (a & b & Hpair & _)]; discriminate.
Defined.

(** C1, as stated, fails on a two-card deck that lies in descending order:
    the deck holds the King of Hearts and then the Two of Clubs, and
    iterating it yields the King of Hearts and then the Two of Clubs, which
    is the full contents of the deck. *)
Lemma Deck_iter_enumerates_pair :
  Sample.store_of Sample.pair !! _cards Sample.deck
  = Some [VCard (mkCard HEARTS KING); VCard (mkCard CLUBS TWO)] ∧
  Deck.__iter__ Sample.deck (Sample.store_of Sample.pair)
  = (Ok [VCard (mkCard HEARTS KING); VCard (mkCard CLUBS TWO)],
     Sample.store_of Sample.pair).
Proof. split; reflexivity. Qed.

(** ** [Deck]: shuffling *)

Lemma Random_swap_perm (i j : nat) (items : list val) :
  Random.swap i j items ≡ₚ items.
Proof.
  unfold Random.swap.
  destruct (items !! i) as [a |] eqn:Hi; [| done].
  destruct (items !! j) as [b |] eqn:Hj; [| done].
  by apply Permutation_insert_swap.
Qed.

Lemma Random_shuffle_from_perm (randbelow : nat → nat) (i : nat) :
  ∀ items, Random.shuffle_from randbelow i items ≡ₚ items.
Proof.
  induction i as [| i IH]; intros items; simpl; [done |].
  rewrite IH. apply Random_swap_perm.
Qed.

Lemma Random_shuffle_ok
    (randbelow : nat → nat) (l : loc) (σ : gmap loc (list val))
    (items : list val) :
  σ !! l = Some items →
  ∃ items', Random.shuffle randbelow l σ = (Ok (), <[l := items']> σ) ∧
            items' ≡ₚ items.
Proof.
  intros H. eexists. split.
  - unfold Random.shuffle. erewrite bind_ok by (apply load_ok, H).
    reflexivity.
  - apply Random_shuffle_from_perm.
Qed.

(** [shuffle()] keeps the cards of the deck, in some order, and returns the
    deck itself; this holds at every size, the empty deck included. *)
Lemma Deck_shuffle_ok
    (randbelow : nat → nat) (self : Deck) (σ : gmap loc (list val))
    (items : list val) :
  σ !! _cards self = Some items →
  ∃ items',
    Deck.shuffle randbelow self σ = (Ok self, <[_cards self := items']> σ) ∧
    items' ≡ₚ items ∧ length items' = length items.
Proof.
  intros H.
  destruct (Random_shuffle_ok randbelow _ σ items H) as (items' & Hrun & Hp).
  exists items'. split; [| split; [exact Hp | by rewrite Hp]].
  unfold Deck.shuffle. erewrite bind_ok by exact Hrun. reflexivity.
Qed.

(** A deck built with [shuffle=True] holds the same 52 cards in some
    order. *)
Lemma Deck_init_shuffled_ok
    (randbelow : nat → nat) (σ : gmap loc (list val)) :
  ∃ self items,
    Deck.__init__ randbelow true σ = (Ok self, <[_cards self := items]> σ) ∧
    σ !! _cards self = None ∧
    items ≡ₚ VCard <$> Deck.all_cards.
Proof.
  destruct (alloc_ok σ (VCard <$> Deck.all_cards)) as (l & Hl & Hfresh).
  destruct (Random_shuffle_ok randbelow l
              (<[l := VCard <$> Deck.all_cards]> σ) (VCard <$> Deck.all_cards))
    as (items & Hrun & Hp); [apply lookup_insert_eq |].
  exists (mkDeck l), items. split; [| split; [exact Hfresh | exact Hp]].
  unfold Deck.__init__.
  erewrite bind_ok by exact Hl. erewrite bind_ok by exact Hrun.
  unfold mret, M_ret. by rewrite insert_insert_eq.
Qed.

(** ** [Deck]: the list of a deck holds cards only *)

Lemma cards_only_perm (items : list val) (cs : list Card) :
  items ≡ₚ VCard <$> cs → ∃ cs', items = VCard <$> cs' ∧ cs' ≡ₚ cs.
Proof.
  intros Hp. remember (VCard <$> cs) as l eqn:El. revert cs El.
  induction Hp as [| x l1 l2 Hp IH | x y l | l1 l2 l3 H12 IH12 H23 IH23];
    intros cs El.
  - exists []. by destruct cs.
  - destruct cs as [| c cs]; simplify_eq/=.
    destruct (IH cs eq_refl) as (cs' & -> & Hcs).
    exists (c :: cs'). split; [reflexivity | by constructor].
  - destruct cs as [| c1 [| c2 cs]]; simplify_eq/=.
    exists (c2 :: c1 :: cs). split; [reflexivity | apply perm_swap].
  - destruct (IH23 cs El) as (cs2 & -> & H2).
    destruct (IH12 cs2 eq_refl) as (cs1 & -> & H1).
    exists cs1. split; [reflexivity | by etrans].
Qed.

Lemma holds_cards_init
    (randbelow : nat → nat) (shuffle : bool) (σ : gmap loc (list val)) :
  ∃ self σ',
    Deck.__init__ randbelow shuffle σ = (Ok self, σ') ∧ holds_cards σ' self.
Proof.
  destruct shuffle.
  - destruct (Deck_init_shuffled_ok randbelow σ)
      as (self & items & Hinit & _ & Hp).
    destruct (cards_only_perm _ _ Hp) as (cs & -> & _).
    exists self, (<[_cards self := VCard <$> cs]> σ).
    split; [exact Hinit |]. exists cs. apply lookup_insert_eq.
  - destruct (Deck_init_unshuffled_ok randbelow σ) as (self & Hinit & _).
    exists self, (<[_cards self := VCard <$> Deck.all_cards]> σ).
    split; [exact Hinit |]. exists Deck.all_cards. apply lookup_insert_eq.
Qed.

Lemma holds_cards_add_card
    (self : Deck) (x : val) (σ σ' : gmap loc (list val)) (r : result Deck) :
  holds_cards σ self → Deck.add_card self x σ = (r, σ') →
  holds_cards σ' self.
Proof.
  intros [cs H] Hrun.
  destruct (Deck_add_card_guard self σ (VCard <$> cs) x H) as [Hx Hc].
  destruct x; simpl in *;
    try (rewrite Hx in Hrun by done; injection Hrun as <- <-; by exists cs).
  rewrite Hc in Hrun by done. injection Hrun as <- <-.
  exists (cs ++ [c]). rewrite fmap_app. apply lookup_insert_eq.
Qed.

Lemma holds_cards_draw
    (self : Deck) (σ σ' : gmap loc (list val)) (r : result val) :
  holds_cards σ self → Deck.draw self σ = (r, σ') → holds_cards σ' self.
Proof.
  intros [cs H]. rewrite (Deck_draw_ok _ _ _ H).
  destruct cs as [| c cs]; simpl; intros [= <- <-].
  - by exists [].
  - exists cs. apply lookup_insert_eq.
Qed.

Lemma holds_cards_shuffle
    (randbelow : nat → nat) (self : Deck) (σ σ' : gmap loc (list val))
    (r : result Deck) :
  holds_cards σ self → Deck.shuffle randbelow self σ = (r, σ') →
  holds_cards σ' self.
Proof.
  intros [cs H] Hrun.
  destruct (Deck_shuffle_ok randbelow self σ _ H) as (items & Heq & Hp & _).
  rewrite Heq in Hrun. injection Hrun as <- <-.
  destruct (cards_only_perm _ _ Hp) as (cs' & -> & _).
  exists cs'. apply lookup_insert_eq.
Qed.

Lemma holds_cards_cards
    (self : Deck) (σ σ' : gmap loc (list val)) (r : result loc) :
  holds_cards σ self → Deck.cards self σ = (r, σ') → holds_cards σ' self.
Proof.
  intros [cs H] Hrun.
  destruct (Deck_cards_ok self σ _ H) as (s & Heq & _ & Hne).
  rewrite Heq in Hrun. injection Hrun as <- <-.
  exists cs. by rewrite lookup_insert_ne.
Qed.

(* ===================================================================== *)
(** * Further properties of the code *)
(* ===================================================================== *)

(** ** [Card]: equality, order and text *)

(** X1. On two cards [==] decides whether they have the same suit and the
    same rank: it returns [True] when they do and [False] when they do
    not. *)
Theorem Card_eq_decides (a b : Card) :
  Card.__eq__ a (VCard b)
  = Ok (VBool (bool_decide (_suit a = _suit b ∧ _rank a = _rank b))).
Proof.
  destruct (Card.__eq__ a (VCard b)) as [v |] eqn:Heq; [| discriminate].
  simpl in Heq. injection Heq as <-. do 2 f_equal.
  destruct (Tuple.eq (Card.key a) (Card.key b)) eqn:Hk; symmetry.
  - apply bool_decide_eq_true.
    apply Tuple_eq_spec, Card_key_inj in Hk. by subst.
  - apply bool_decide_eq_false. intros [Hs Hr].
    apply not_true_iff_false in Hk. apply Hk, Tuple_eq_spec.
    unfold Card.key. by rewrite Hs, Hr.
Qed.

(** X2. On two cards the operator [>] is [<] with the operands exchanged:
    [a > b] and [b < a] evaluate to the same boolean. *)
Theorem Card_gt_converse (a b : Card) :
  ∃ r : bool,
    Object.compare Py_GT (VCard a) (VCard b) = Ok (VBool r) ∧
    Object.compare Py_LT (VCard b) (VCard a) = Ok (VBool r).
Proof.
  exists (Tuple.gt (Card.key a) (Card.key b)).
  split; [reflexivity |]. cbn. by rewrite Tuple_gt_lt.
Qed.

(** X3. [<] on cards is transitive, and it never holds in both
    directions. *)
Theorem Card_lt_chain (a b c : Card) :
  Card.__lt__ a (VCard b) = Ok (VBool true) →
  Card.__lt__ b (VCard c) = Ok (VBool true) →
  Card.__lt__ a (VCard c) = Ok (VBool true) ∧
  Card.__lt__ c (VCard a) = Ok (VBool false).
Proof.
  simpl. intros [= Hab] [= Hbc].
  assert (Hac : Tuple.lt (Card.key a) (Card.key c) = true)
    by eauto using Tuple_lt_trans.
  split; do 2 f_equal; [exact Hac |].
  destruct (Tuple.lt (Card.key c) (Card.key a)) eqn:Hca; [| reflexivity].
  pose proof (Tuple_lt_trans _ _ _ Hac Hca) as Hirr.
  by rewrite Tuple_lt_irrefl in Hirr.
Qed.

Lemma Card_lt_chain_witness :
  Card.__lt__ (mkCard SPADES TWO) (VCard (mkCard CLUBS NINE))
    = Ok (VBool true) ∧
  Card.__lt__ (mkCard CLUBS NINE) (VCard (mkCard HEARTS NINE))
    = Ok (VBool true) ∧
  Card.__lt__ (mkCard SPADES TWO) (VCard (mkCard HEARTS NINE))
    = Ok (VBool true) ∧
  Card.__lt__ (mkCard HEARTS NINE) (VCard (mkCard SPADES TWO))
    = Ok (VBool false).
Proof.
  split; [reflexivity |]. split; [reflexivity |].
  apply (Card_lt_chain (mkCard SPADES TWO) (mkCard CLUBS NINE)
           (mkCard HEARTS NINE)); reflexivity.
Defined.

(** X4. The rank decides the order whatever the suits are: a card of a
    lower rank is less than, not equal to and not greater than a card of a
    higher rank. Between cards of one rank the suit decides. *)
Theorem Card_rank_dominates (a b : Card) :
  ((CardRank.value (_rank a) < CardRank.value (_rank b))%Z →
     Card.__lt__ a (VCard b) = Ok (VBool true) ∧
     Card.__eq__ a (VCard b) = Ok (VBool false) ∧
     Card.__gt__ a (VCard b) = Ok (VBool false)) ∧
  (_rank a = _rank b →
     Card.__lt__ a (VCard b)
     = Ok (VBool (CardSuit.value (_suit a) <? CardSuit.value (_suit b))%Z)).
Proof.
  split.
  - intros Hr.
    assert (Hlt : Tuple.lt (Card.key a) (Card.key b) = true)
      by (apply Tuple_lt_spec; left; exact Hr).
    destruct (Tuple_trichotomy (Card.key a) (Card.key b))
      as [(_ & He & Hg) | [(Hl & _) | (Hl & _)]]; try congruence.
    simpl. by rewrite Hlt, He, Hg.
  - intros Hr. simpl. do 2 f_equal. unfold Tuple.lt, Card.key. simpl.
    rewrite Hr, Z.eqb_refl. simpl.
    destruct (Z.eqb_spec (CardSuit.value (_suit a))
                (CardSuit.value (_suit b))) as [-> | _]; simpl;
      [by rewrite Z.ltb_irrefl | reflexivity].
Qed.

Lemma Card_rank_dominates_witness :
  (Card.__lt__ (mkCard SPADES KING) (VCard (mkCard CLUBS ACE))
     = Ok (VBool true) ∧
   Card.__eq__ (mkCard SPADES KING) (VCard (mkCard CLUBS ACE))
     = Ok (VBool false) ∧
   Card.__gt__ (mkCard SPADES KING) (VCard (mkCard CLUBS ACE))
     = Ok (VBool false)) ∧
  Card.__lt__ (mkCard SPADES KING) (VCard (mkCard HEARTS KING))
  = Ok (VBool false).
Proof.
  split.
  - apply (proj1 (Card_rank_dominates (mkCard SPADES KING)
                    (mkCard CLUBS ACE))). reflexivity.
  - apply (proj2 (Card_rank_dominates (mkCard SPADES KING)
                    (mkCard HEARTS KING)) eq_refl).
Defined.

(** Every card is one of the 52 of the comprehension. *)
Lemma all_cards_complete (c : Card) : c ∈ Deck.all_cards.
Proof.
  apply list_elem_of_In. destruct c as [[] []]; vm_compute; tauto.
Qed.

(** A text computed from a card tells the cards apart when it does so on
    the 52 cards, which a finite check settles. *)
Lemma card_text_inj (f : Card → string) :
  forallb (λ a, forallb (λ b, implb (String.eqb (f a) (f b))
                                (bool_decide (a = b)))
                  Deck.all_cards) Deck.all_cards = true →
  ∀ a b, f a = f b → a = b.
Proof.
  intros Hcheck a b Hf.
  rewrite forallb_forall in Hcheck.
  specialize (Hcheck a (proj1 (list_elem_of_In _ _) (all_cards_complete a))).
  rewrite forallb_forall in Hcheck.
  specialize (Hcheck b (proj1 (list_elem_of_In _ _) (all_cards_complete b))).
  rewrite Hf, String.eqb_refl in Hcheck. simpl in Hcheck.
  by apply bool_decide_eq_true in Hcheck.
Qed.

(** X5. The text of a card identifies it: two cards with the same [str]
    (the display name), or with the same [repr], are the same card. *)
Theorem Card_text_identifies (a b : Card) :
  Card.__str__ a = Card.__str__ b ∨ Repr.__repr__ a = Repr.__repr__ b →
  a = b.
Proof.
  intros [Hstr | Hrepr].
  - revert a b Hstr. apply (card_text_inj Card.get_display_name).
    vm_compute. reflexivity.
  - revert a b Hrepr. apply card_text_inj. vm_compute. reflexivity.
Qed.

Lemma Card_text_identifies_witness :
  (Card.__str__ (mkCard HEARTS QUEEN)
   = Str.title "QUEEN" +:+ " of " +:+ Str.title "HEARTS")%string ∧
  mkCard HEARTS QUEEN = mkCard (_suit (mkCard HEARTS QUEEN)) QUEEN.
Proof.
  split; [reflexivity |].
  apply (Card_text_identifies (mkCard HEARTS QUEEN)
           (mkCard (_suit (mkCard HEARTS QUEEN)) QUEEN)).
  left. reflexivity.
Defined.

Example repr_ten_of_clubs :
  Repr.__repr__ (mkCard CLUBS TEN)
  = "Card(suit=<CardSuit.CLUBS: 1>, rank=<CardRank.TEN: 10>)"%string.
Proof. vm_compute. reflexivity. Qed.

(** ** [Deck]: shuffling and construction *)

(** X6. [shuffle()] returns the deck itself and rearranges its list in
    place: the new list has the same items with the same multiplicities and
    the same length, no other list object changes, and a deck of at most
    one card is left exactly as it was. *)
Theorem Deck_shuffle_keeps_items
    (randbelow : nat → nat) (self : Deck) (σ : gmap loc (list val))
    (items : list val) :
  σ !! _cards self = Some items →
  ∃ items',
    Deck.shuffle randbelow self σ = (Ok self, <[_cards self := items']> σ) ∧
    items' ≡ₚ items ∧
    length items' = length items ∧
    (length items ≤ 1 → items' = items).
Proof.
  intros H.
  destruct (Deck_shuffle_ok randbelow self σ items H)
    as (items' & Hrun & Hp & Hlen).
  exists items'. split; [exact Hrun |]. split; [exact Hp |].
  split; [exact Hlen |].
  intros Hsmall. destruct items as [| x [| y items]]; simpl in Hsmall.
  - by apply Permutation_nil_r.
  - symmetry in Hp. by apply Permutation_singleton_l in Hp.
  - lia.
Qed.

Lemma Deck_shuffle_keeps_items_witness :
  ∃ items',
    Deck.shuffle (λ n, n * 7 + 3) Sample.deck (Sample.store_of Sample.hand)
    = (Ok Sample.deck,
       <[_cards Sample.deck := items']> (Sample.store_of Sample.hand)) ∧
    items' ≡ₚ VCard <$> Sample.hand ∧
    length items' = length (VCard <$> Sample.hand) ∧
    (length (VCard <$> Sample.hand) ≤ 1 → items' = VCard <$> Sample.hand).
Proof.
  apply (Deck_shuffle_keeps_items (λ n, n * 7 + 3) Sample.deck
           (Sample.store_of Sample.hand) (VCard <$> Sample.hand)).
  reflexivity.
Defined.

(** X7. A deck built with [shuffle=True] is, whatever the random draws are,
    a new list of 52 items in which each of the 52 cards occurs exactly
    once. *)
Theorem Deck_shuffled_contents
    (randbelow : nat → nat) (σ : gmap loc (list val)) :
  ∃ self items,
    Deck.__init__ randbelow true σ = (Ok self, <[_cards self := items]> σ) ∧
    σ !! _cards self = None ∧
    length items = 52 ∧
    ∀ suit rank, count_occ val_eq_dec items (VCard (mkCard suit rank)) = 1.
Proof.
  destruct (Deck_init_shuffled_ok randbelow σ)
    as (self & items & Hinit & Hfresh & Hp).
  exists self, items. split; [exact Hinit |]. split; [exact Hfresh |].
  split; [by rewrite Hp |].
  intros suit rank.
  rewrite (Permutation_count_occ val_eq_dec) in Hp. rewrite Hp.
  destruct suit, rank; vm_compute; reflexivity.
Qed.

(** ** [Deck]: reading *)



Lemma Deck_max_store (self : Deck) (σ : gmap loc (list val)) :
  (Deck.max self σ).2 = σ.
Proof.
  unfold Deck.max, PyList.is_true, PyList.max, Store.load, lift, mbind,
    M_bind, mret, M_ret.
  destruct (σ !! _cards self) as [[| x items] |] eqn:H; simpl;
    try reflexivity.
  rewrite H. reflexivity.
Qed.

Lemma Deck_min_store (self : Deck) (σ : gmap loc (list val)) :
  (Deck.min self σ).2 = σ.
Proof.
  unfold Deck.min, PyList.is_true, PyList.min, Store.load, lift, mbind,
    M_bind, mret, M_ret.
  destruct (σ !! _cards self) as [[| x items] |] eqn:H; simpl;
    try reflexivity.
  rewrite H. reflexivity.
Qed.

Lemma Deck_iter_store (self : Deck) (σ : gmap loc (list val)) :
  (Deck.__iter__ self σ).2 = σ.
Proof.
  pose proof (Deck_max_store self σ) as Hmax.
  pose proof (Deck_min_store self σ) as Hmin.
  unfold Deck.__iter__, mbind, M_bind, mret, M_ret.
  destruct (Deck.max self σ) as [[hi | e] σ1]; simpl in Hmax; subst σ1;
    [| reflexivity].
  destruct (Deck.min self σ) as [[lo | e] σ2]; simpl in Hmin; subst σ2;
    [| reflexivity].
  by destruct (negb (is_None hi) && negb (is_None lo)).
Qed.

Lemma Deck_len_store (self : Deck) (σ : gmap loc (list val)) :
  (Deck.__len__ self σ).2 = σ.
Proof.
  unfold Deck.__len__, PyList.len, Store.load, mbind, M_bind, mret, M_ret.
  by destruct (σ !! _cards self).
Qed.

Lemma Deck_getitem_store (self : Deck) (σ : gmap loc (list val)) (i : Z) :
  (Deck.__getitem__ self i σ).2 = σ.
Proof.
  unfold Deck.__getitem__, PyList.getitem, Store.load, raise, mbind, M_bind,
    mret, M_ret.
  destruct (σ !! _cards self) as [items |]; [| reflexivity].
  by destruct (option_bind _ _ _ _).
Qed.

(** X9. [max()], [min()], iteration, [len()] and indexing only read: in
    every store, and whether they return or raise, the store afterwards is
    the store before. *)
Theorem Deck_readers_keep_store (self : Deck) (σ : gmap loc (list val)) :
  (Deck.max self σ).2 = σ ∧
  (Deck.min self σ).2 = σ ∧
  (Deck.__iter__ self σ).2 = σ ∧
  (Deck.__len__ self σ).2 = σ ∧
  ∀ i, (Deck.__getitem__ self i σ).2 = σ.
Proof.
  auto using Deck_max_store, Deck_min_store, Deck_iter_store,
    Deck_len_store, Deck_getitem_store.
Qed.

(** ** [Deck]: how the methods compose *)

Lemma Deck_len_ok (self : Deck) (σ : gmap loc (list val)) (items : list val) :
  σ !! _cards self = Some items →
  Deck.__len__ self σ = (Ok (Z.of_nat (length items)), σ).
Proof. intros H. unfold Deck.__len__. by apply len_ok. Qed.

(** X10. [len(deck)] is the number of items of the deck's list, and it
    follows the other methods: [draw()] lowers it by one (an empty deck
    stays at 0), [add_card] of a card raises it by one, [add_card] of
    anything else and [shuffle()] leave it as it is. *)
Theorem Deck_len_tracks
    (self : Deck) (σ : gmap loc (list val)) (items : list val) :
  σ !! _cards self = Some items →
  let n := Z.of_nat (length items) in
  Deck.__len__ self σ = (Ok n, σ) ∧
  (∀ r σ', Deck.draw self σ = (r, σ') →
     Deck.__len__ self σ' = (Ok (Z.max 0 (n - 1)), σ')) ∧
  (∀ x r σ', Deck.add_card self x σ = (r, σ') →
     Deck.__len__ self σ'
     = (Ok (if isinstance_Card x then n + 1 else n)%Z, σ')) ∧
  (∀ randbelow r σ', Deck.shuffle randbelow self σ = (r, σ') →
     Deck.__len__ self σ' = (Ok n, σ')).
Proof.
  intros H n. subst n. split; [by apply Deck_len_ok |]. split; [| split].
  - intros r σ'. rewrite (Deck_draw_ok _ _ _ H).
    destruct items as [| top rest]; intros [= <- <-].
    + by rewrite (Deck_len_ok _ _ _ H).
    + rewrite (Deck_len_ok _ _ rest) by apply lookup_insert_eq.
      do 2 f_equal. simpl length. lia.
  - intros x r σ' Hrun.
    destruct (Deck_add_card_guard self σ items x H) as [Hno Hyes].
    destruct (isinstance_Card x).
    + rewrite Hyes in Hrun by done. injection Hrun as <- <-.
      rewrite (Deck_len_ok _ _ (items ++ [x])) by apply lookup_insert_eq.
      do 2 f_equal. rewrite length_app. simpl. lia.
    + rewrite Hno in Hrun by done. injection Hrun as <- <-.
      by apply Deck_len_ok.
  - intros randbelow r σ' Hrun.
    destruct (Deck_shuffle_ok randbelow self σ items H)
      as (items' & Heq & _ & Hlen).
    rewrite Heq in Hrun. injection Hrun as <- <-.
    rewrite (Deck_len_ok _ _ items') by apply lookup_insert_eq.
    by rewrite Hlen.
Qed.

Lemma Deck_len_tracks_witness :
  Deck.__len__ Sample.deck (Sample.store_of Sample.hand)
  = (Ok 3%Z, Sample.store_of Sample.hand) ∧
  (∀ r σ', Deck.draw Sample.deck (Sample.store_of Sample.hand) = (r, σ') →
     Deck.__len__ Sample.deck σ' = (Ok 2%Z, σ')).
Proof.
  pose proof (Deck_len_tracks Sample.deck (Sample.store_of Sample.hand)
                (VCard <$> Sample.hand) eq_refl) as (Hlen & Hdraw & _).
  split; [exact Hlen | exact Hdraw].
Defined.

(** X11. On a deck that holds cards, [None] is returned by [draw()], by
    [max()] and by [min()] exactly when the deck is empty: it never stands
    for a card. *)
Theorem Deck_None_iff_empty (self : Deck) (σ : gmap loc (list val)) :
  holds_cards σ self →
  ((Deck.draw self σ).1 = Ok VNone ↔ (Deck.__len__ self σ).1 = Ok 0%Z) ∧
  ((Deck.max self σ).1 = Ok VNone ↔ (Deck.__len__ self σ).1 = Ok 0%Z) ∧
  ((Deck.min self σ).1 = Ok VNone ↔ (Deck.__len__ self σ).1 = Ok 0%Z).
Proof.
  intros [cs H].
  rewrite (Deck_len_ok _ _ _ H), (Deck_draw_ok _ _ _ H).
  destruct cs as [| c cs].
  - rewrite (Deck_max_ok _ _ _ H), (Deck_min_ok _ _ _ H). simpl. tauto.
  - destruct (Deck_extremes_ok self σ (c :: cs) H)
      as (hi & lo & -> & -> & _); [done |].
    simpl. repeat split; intros [= ].
Qed.

Lemma Deck_None_iff_empty_witness :
  ((Deck.draw Sample.deck (Sample.store_of [])).1 = Ok VNone ↔
   (Deck.__len__ Sample.deck (Sample.store_of [])).1 = Ok 0%Z) ∧
  ((Deck.max Sample.deck (Sample.store_of Sample.hand)).1 = Ok VNone ↔
   (Deck.__len__ Sample.deck (Sample.store_of Sample.hand)).1 = Ok 0%Z).
Proof.
  split.
  - apply (Deck_None_iff_empty Sample.deck (Sample.store_of [])).
    by exists [].
  - apply (Deck_None_iff_empty Sample.deck (Sample.store_of Sample.hand)).
    by exists Sample.hand.
Defined.

(** X12. After [add_card] of a card, the card is the last item (at index
    [-1] and at index [N]) and every item that was in the deck is where it
    was. Nothing depends on whether the card was in the deck already: a
    duplicate is added like any other card. *)
Theorem Deck_add_card_then_index
    (self : Deck) (σ : gmap loc (list val)) (items : list val) (c : Card) :
  σ !! _cards self = Some items →
  ∃ σ',
    Deck.add_card self (VCard c) σ = (Ok self, σ') ∧
    Deck.__getitem__ self (-1) σ' = (Ok (VCard c), σ') ∧
    Deck.__getitem__ self (Z.of_nat (length items)) σ' = (Ok (VCard c), σ') ∧
    ∀ i v, items !! i = Some v →
           Deck.__getitem__ self (Z.of_nat i) σ' = (Ok v, σ').
Proof.
  intros H.
  destruct (Deck_add_card_guard self σ items (VCard c) H) as [_ Hyes].
  exists (<[_cards self := items ++ [VCard c]]> σ).
  split; [by apply Hyes |].
  assert (Hlast : (items ++ [VCard c]) !! length items = Some (VCard c))
    by (rewrite lookup_app_r, Nat.sub_diag by lia; reflexivity).
  unfold Deck.__getitem__. split; [| split].
  - eapply getitem_ok; [apply lookup_insert_eq | |].
    + apply (index_of_back _ 1). rewrite length_app. simpl. lia.
    + rewrite length_app. simpl.
      replace (length items + 1 - Z.to_nat 1) with (length items) by lia.
      exact Hlast.
  - eapply getitem_ok; [apply lookup_insert_eq | | exact Hlast].
    rewrite index_of_front by (rewrite length_app; simpl; lia).
    by rewrite Nat2Z.id.
  - intros i v Hv. eapply getitem_ok; [apply lookup_insert_eq | |].
    + apply index_of_front. rewrite length_app.
      apply lookup_lt_Some in Hv. simpl. lia.
    + rewrite Nat2Z.id. by apply lookup_app_l_Some.
Qed.

Lemma Deck_add_card_then_index_witness :
  ∃ σ',
    Deck.add_card Sample.deck (VCard (mkCard CLUBS ACE))
      (Sample.store_of Sample.hand) = (Ok Sample.deck, σ') ∧
    Deck.__getitem__ Sample.deck (-1) σ'
    = (Ok (VCard (mkCard CLUBS ACE)), σ') ∧
    Deck.__getitem__ Sample.deck
      (Z.of_nat (length (VCard <$> Sample.hand))) σ'
    = (Ok (VCard (mkCard CLUBS ACE)), σ') ∧
    ∀ i v, (VCard <$> Sample.hand) !! i = Some v →
           Deck.__getitem__ Sample.deck (Z.of_nat i) σ' = (Ok v, σ').
Proof.
  apply (Deck_add_card_then_index Sample.deck (Sample.store_of Sample.hand)
           (VCard <$> Sample.hand) (mkCard CLUBS ACE)).
  reflexivity.
Defined.

(** X13. Drawing the top card and adding it back, as [main] does, moves it
    to the bottom: the deck's list becomes the rest followed by the former
    top item, at the same length. On an empty deck the same two calls raise
    [TypeError], since [draw()] returned [None], and the deck stays
    empty. *)
Theorem Deck_draw_add_back
    (self : Deck) (σ : gmap loc (list val)) (cs : list Card) :
  σ !! _cards self = Some (VCard <$> cs) →
  (top ← Deck.draw self; Deck.add_card self top) σ
  = match cs with
    | [] =>
        (Raise (TypeError "Only Card instances can be added to the deck"), σ)
    | top :: rest =>
        (Ok self, <[_cards self := VCard <$> (rest ++ [top])]> σ)
    end.
Proof.
  intros H. destruct cs as [| top rest].
  - erewrite bind_ok by (rewrite (Deck_draw_ok _ _ _ H); reflexivity).
    reflexivity.
  - erewrite bind_ok by (rewrite (Deck_draw_ok _ _ _ H); reflexivity).
    destruct (Deck_add_card_guard self (<[_cards self := VCard <$> rest]> σ)
                (VCard <$> rest) (VCard top)) as [_ Hyes];
      [apply lookup_insert_eq |].
    etrans; [apply Hyes; reflexivity |].
    by rewrite insert_insert_eq, fmap_app.
Qed.

Lemma Deck_draw_add_back_witness :
  (top ← Deck.draw Sample.deck; Deck.add_card Sample.deck top)
    (Sample.store_of Sample.hand)
  = (Ok Sample.deck,
     <[_cards Sample.deck :=
         VCard <$> [mkCard CLUBS ACE; mkCard SPADES TWO; mkCard HEARTS NINE]]>
       (Sample.store_of Sample.hand)).
Proof.
  apply (Deck_draw_add_back Sample.deck (Sample.store_of Sample.hand)
           Sample.hand).
  reflexivity.
Defined.

(** X14. [n] calls of [draw()] in a row return the first [n] items of the
    deck in order, followed by [None] for every call made after the deck
    ran out, and leave the items that were not drawn. No call raises. *)
Theorem Deck_draw_many (self : Deck) (n : nat) :
  ∀ (σ : gmap loc (list val)) (items : list val),
    σ !! _cards self = Some items →
    Client.draw_many self n σ
    = (Ok (take n items ++ replicate (n - length items) VNone),
       <[_cards self := drop n items]> σ).
Proof.
  induction n as [| n IH]; intros σ items H.
  - simpl. rewrite drop_0, insert_id by exact H. reflexivity.
  - simpl Client.draw_many. destruct items as [| top rest].
    + erewrite bind_ok by apply (Deck_draw_ok _ _ _ H).
      erewrite bind_ok by (apply IH, H).
      rewrite !take_nil, !drop_nil. simpl. by rewrite Nat.sub_0_r.
    + erewrite bind_ok by apply (Deck_draw_ok _ _ _ H).
      erewrite bind_ok by (apply IH, lookup_insert_eq).
      rewrite insert_insert_eq. reflexivity.
Qed.

Lemma Deck_draw_many_witness :
  Client.draw_many Sample.deck 5 (Sample.store_of Sample.hand)
  = (Ok [VCard (mkCard HEARTS NINE); VCard (mkCard CLUBS ACE);
         VCard (mkCard SPADES TWO); VNone; VNone],
     <[_cards Sample.deck := []]> (Sample.store_of Sample.hand)).
Proof.
  exact (Deck_draw_many Sample.deck 5 (Sample.store_of Sample.hand)
           (VCard <$> Sample.hand) eq_refl).
Defined.

(** X15. The list returned by [cards] reads like the deck: it has the
    deck's length, and at every index, in range or not, indexing it gives
    what indexing the deck gives. *)
Theorem Deck_cards_reads_alike
    (self : Deck) (σ : gmap loc (list val)) (items : list val) :
  σ !! _cards self = Some items →
  ∃ s σ',
    Deck.cards self σ = (Ok s, σ') ∧
    PyList.len s σ' = Deck.__len__ self σ' ∧
    ∀ i, PyList.getitem s i σ' = Deck.__getitem__ self i σ'.
Proof.
  intros H. destruct (Deck_cards_ok self σ items H) as (s & Hs & _ & Hne).
  exists s, (<[s := items]> σ). split; [exact Hs |].
  assert (H1 : <[s := items]> σ !! _cards self = Some items)
    by (by rewrite lookup_insert_ne).
  assert (H2 : <[s := items]> σ !! s = Some items)
    by apply lookup_insert_eq.
  split.
  - unfold Deck.__len__. by rewrite (len_ok _ _ _ H1), (len_ok _ _ _ H2).
  - intros i. unfold Deck.__getitem__, PyList.getitem.
    erewrite !bind_ok by (apply load_ok; eassumption). reflexivity.
Qed.

Lemma Deck_cards_reads_alike_witness :
  ∃ s σ',
    Deck.cards Sample.deck (Sample.store_of Sample.hand) = (Ok s, σ') ∧
    PyList.len s σ' = Deck.__len__ Sample.deck σ' ∧
    ∀ i, PyList.getitem s i σ' = Deck.__getitem__ Sample.deck i σ'.
Proof.
  apply (Deck_cards_reads_alike Sample.deck (Sample.store_of Sample.hand)
           (VCard <$> Sample.hand)).
  reflexivity.
Defined.

(** X16. When all the cards of a deck are one and the same card, its
    maximum and its minimum are that card and iterating the deck yields it
    twice; so a deck of one card is iterated as two values. *)
Theorem Deck_iter_single_value
    (self : Deck) (σ : gmap loc (list val)) (cs : list Card) (c : Card) :
  σ !! _cards self = Some (VCard <$> cs) →
  cs ≠ [] →
  (∀ x, x ∈ cs → x = c) →
  Deck.max self σ = (Ok (VCard c), σ) ∧
  Deck.min self σ = (Ok (VCard c), σ) ∧
  Deck.__iter__ self σ = (Ok [VCard c; VCard c], σ).
Proof.
  intros H Hne Hall.
  destruct (Deck_extremes_ok self σ cs H Hne)
    as (hi & lo & Hhi & Hlo & Hhi_in & Hlo_in & _).
  apply Hall in Hhi_in, Hlo_in. subst hi lo.
  split; [exact Hhi |]. split; [exact Hlo |].
  by apply Deck_iter_cards.
Qed.

Lemma Deck_iter_single_value_witness :
  Deck.max Sample.deck (Sample.store_of [mkCard DIAMONDS JACK])
  = (Ok (VCard (mkCard DIAMONDS JACK)),
     Sample.store_of [mkCard DIAMONDS JACK]) ∧
  Deck.min Sample.deck (Sample.store_of [mkCard DIAMONDS JACK])
  = (Ok (VCard (mkCard DIAMONDS JACK)),
     Sample.store_of [mkCard DIAMONDS JACK]) ∧
  Deck.__iter__ Sample.deck (Sample.store_of [mkCard DIAMONDS JACK])
  = (Ok [VCard (mkCard DIAMONDS JACK); VCard (mkCard DIAMONDS JACK)],
     Sample.store_of [mkCard DIAMONDS JACK]).
Proof.
  apply (Deck_iter_single_value Sample.deck
           (Sample.store_of [mkCard DIAMONDS JACK]) [mkCard DIAMONDS JACK]
           (mkCard DIAMONDS JACK)).
  - reflexivity.
  - discriminate.
  - intros x Hx. by apply list_elem_of_singleton in Hx.
Defined.

(** No card is greater than the Ace of Spades, none less than the Two of
    Clubs, and they are the only cards of which that is true. *)
Lemma Card_top_unique (hi : Card) :
  Card.__gt__ (mkCard SPADES ACE) (VCard hi) = Ok (VBool false) →
  hi = mkCard SPADES ACE.
Proof. destruct hi as [[] []]; vm_compute; intros [= ]; reflexivity. Qed.

Lemma Card_bottom_unique (lo : Card) :
  Card.__lt__ (mkCard CLUBS TWO) (VCard lo) = Ok (VBool false) →
  lo = mkCard CLUBS TWO.
Proof. destruct lo as [[] []]; vm_compute; intros [= ]; reflexivity. Qed.

(** X17. On a newly built deck, shuffled or not and whatever the random
    draws are, [len] is 52, [max()] is the Ace of Spades, [min()] is the Two
    of Clubs, and iterating yields the Ace of Spades and then the Two of
    Clubs. *)
Theorem Deck_new_extremes
    (randbelow : nat → nat) (shuffle : bool) (σ : gmap loc (list val)) :
  ∃ self σ',
    Deck.__init__ randbelow shuffle σ = (Ok self, σ') ∧
    Deck.__len__ self σ' = (Ok 52%Z, σ') ∧
    Deck.max self σ' = (Ok (VCard (mkCard SPADES ACE)), σ') ∧
    Deck.min self σ' = (Ok (VCard (mkCard CLUBS TWO)), σ') ∧
    Deck.__iter__ self σ'
    = (Ok [VCard (mkCard SPADES ACE); VCard (mkCard CLUBS TWO)], σ').
Proof.
  assert (∃ self σ' cs,
            Deck.__init__ randbelow shuffle σ = (Ok self, σ') ∧
            σ' !! _cards self = Some (VCard <$> cs) ∧
            cs ≡ₚ Deck.all_cards) as (self & σ' & cs & Hinit & H & Hp).
  { destruct shuffle.
    - destruct (Deck_init_shuffled_ok randbelow σ)
        as (self & items & Hinit & _ & Hp).
      destruct (cards_only_perm _ _ Hp) as (cs & -> & Hcs).
      exists self, (<[_cards self := VCard <$> cs]> σ), cs.
      split; [exact Hinit |]. split; [apply lookup_insert_eq | exact Hcs].
    - destruct (Deck_init_unshuffled_ok randbelow σ) as (self & Hinit & _).
      exists self, (<[_cards self := VCard <$> Deck.all_cards]> σ),
        Deck.all_cards.
      split; [exact Hinit |]. split; [apply lookup_insert_eq | done]. }
  exists self, σ'. split; [exact Hinit |].
  split.
  { rewrite (Deck_len_ok _ _ _ H), length_fmap, Hp. reflexivity. }
  assert (Hne : cs ≠ []).
  { intros ->. apply Permutation_nil_l in Hp. discriminate. }
  destruct (Deck_extremes_ok self σ' cs H Hne)
    as (hi & lo & Hhi & Hlo & _ & _ & Htop & Hbot).
  assert (hi = mkCard SPADES ACE) as ->.
  { apply Card_top_unique, Htop. rewrite Hp. apply all_cards_complete. }
  assert (lo = mkCard CLUBS TWO) as ->.
  { apply Card_bottom_unique, Hbot. rewrite Hp. apply all_cards_complete. }
  split; [exact Hhi |]. split; [exact Hlo |]. by apply Deck_iter_cards.
Qed.

(** ** Series of calls on a deck *)

Lemma perform_store {A} (m : M A) (σ : gmap loc (list val)) :
  ((m ≫= λ _, mret ()) σ).2 = (m σ).2.
Proof.
  unfold mbind, M_bind, mret, M_ret. by destruct (m σ) as [[a | e] σ'].
Qed.


Lemma holds_cards_perform
    (self : Deck) (c : Client.call) (σ : gmap loc (list val)) :
  holds_cards σ self → holds_cards (Client.perform self c σ).2 self.
Proof.
  intros Hinv. destruct c; simpl; rewrite perform_store.
  - eapply holds_cards_shuffle; [exact Hinv | apply surjective_pairing].
  - eapply holds_cards_draw; [exact Hinv | apply surjective_pairing].
  - eapply holds_cards_add_card; [exact Hinv | apply surjective_pairing].
  - eapply holds_cards_cards; [exact Hinv | apply surjective_pairing].
  - by rewrite Deck_len_store.
  - by rewrite Deck_getitem_store.
  - by rewrite Deck_max_store.
  - by rewrite Deck_min_store.
  - by rewrite Deck_iter_store.
Qed.

Lemma holds_cards_run (self : Deck) (calls : list Client.call) :
  ∀ σ, holds_cards σ self → holds_cards (Client.run self calls σ) self.
Proof.
  induction calls as [| c calls IH]; intros σ Hinv; [exact Hinv |].
  apply IH, holds_cards_perform, Hinv.
Qed.

(** X18. The deck's list holds cards and nothing else from the moment the
    deck is built and after any series of calls of its methods, with any
    arguments, whether the calls return or raise. *)
Theorem Deck_always_holds_cards
    (randbelow : nat → nat) (shuffle : bool) (σ : gmap loc (list val))
    (calls : list Client.call) :
  ∃ self σ',
    Deck.__init__ randbelow shuffle σ = (Ok self, σ') ∧
    holds_cards σ' self ∧
    holds_cards (Client.run self calls σ') self.
Proof.
  destruct (holds_cards_init randbelow shuffle σ) as (self & σ' & Hinit & H).
  exists self, σ'. split; [exact Hinit |]. split; [exact H |].
  by apply holds_cards_run.
Qed.

(** A call writes the deck's own list or a list object that it creates: a
    list object that exists already, other than the deck's, keeps its
    items. *)
Lemma perform_frame
    (self : Deck) (c : Client.call) (σ : gmap loc (list val)) (l : loc) :
  l ≠ _cards self → is_Some (σ !! l) →
  (Client.perform self c σ).2 !! l = σ !! l.
Proof.
  intros Hne Hl. destruct c; simpl; rewrite perform_store.
  - unfold Deck.shuffle, Random.shuffle, Store.load, Store.store, mbind,
      M_bind, mret, M_ret.
    destruct (σ !! _cards self); simpl; [by rewrite lookup_insert_ne | done].
  - unfold Deck.draw, PyList.is_true, Store.load, mbind, M_bind, mret, M_ret.
    destruct (σ !! _cards self) as [[| top rest] |] eqn:H; simpl;
      try reflexivity.
    erewrite pop_front_ok by exact H. simpl. by rewrite lookup_insert_ne.
  - unfold Deck.add_card, raise, mbind, M_bind, mret, M_ret.
    destruct (negb (isinstance_Card card)); [reflexivity |].
    destruct (PyList.append (_cards self) card σ) as [[[] | e] σ'] eqn:Happ;
      simpl; eapply PyList_append_frame; eauto.
  - unfold Deck.cards, PyList.copy, Store.load, Store.alloc, mbind, M_bind.
    destruct (σ !! _cards self); simpl; [| reflexivity].
    rewrite lookup_insert_ne; [reflexivity |].
    intros <-. destruct Hl as [x Hx].
    pose proof (is_fresh (dom σ)) as Hfresh.
    apply Hfresh, elem_of_dom. eauto.
  - by rewrite Deck_len_store.
  - by rewrite Deck_getitem_store.
  - by rewrite Deck_max_store.
  - by rewrite Deck_min_store.
  - by rewrite Deck_iter_store.
Qed.

Lemma run_frame (self : Deck) (calls : list Client.call) (l : loc) :
  ∀ σ, l ≠ _cards self → is_Some (σ !! l) →
       Client.run self calls σ !! l = σ !! l.
Proof.
  induction calls as [| c calls IH]; intros σ Hne Hl; [reflexivity |].
  simpl. change (Client.run self calls (Client.perform self c σ).2 !! l
                 = σ !! l).
  rewrite IH; [by apply perform_frame | exact Hne |].
  by rewrite perform_frame.
Qed.

(** X19. A list returned by [cards] keeps the items it was given, whatever
    is done to the deck afterwards: after any series of calls of the deck's
    methods (drawing, adding, shuffling, taking further snapshots) it still
    holds the items the deck had when it was taken. *)
Theorem Deck_snapshot_outlives_calls
    (self : Deck) (σ : gmap loc (list val)) (items : list val) :
  σ !! _cards self = Some items →
  ∃ s σ1,
    Deck.cards self σ = (Ok s, σ1) ∧
    ∀ calls, Client.run self calls σ1 !! s = Some items.
Proof.
  intros H. destruct (Deck_cards_ok self σ items H) as (s & Hs & _ & Hne).
  exists s, (<[s := items]> σ). split; [exact Hs |].
  intros calls. rewrite run_frame; [apply lookup_insert_eq | exact Hne |].
  rewrite lookup_insert_eq. eauto.
Qed.

Lemma Deck_snapshot_outlives_calls_witness :
  ∃ s σ1,
    Deck.cards Sample.deck (Sample.store_of Sample.hand) = (Ok s, σ1) ∧
    ∀ calls, Client.run Sample.deck calls σ1 !! s
             = Some (VCard <$> Sample.hand).
Proof.
  apply (Deck_snapshot_outlives_calls Sample.deck
           (Sample.store_of Sample.hand) (VCard <$> Sample.hand)).
  reflexivity.
Defined.



(** ** [main] *)

Lemma prefix_ok
    (σ : gmap loc (list val)) (l : loc) (items : list val) (stop : Z) :
  σ !! l = Some items → (0 ≤ stop)%Z →
  ∃ p, Main.prefix l stop σ
       = (Ok p, <[p := take (Z.to_nat stop) items]> σ) ∧
       σ !! p = None.
Proof.
  intros H Hstop. unfold Main.prefix.
  erewrite bind_ok by (apply load_ok, H).
  destruct (Z.ltb_spec stop 0); [lia |].
  assert (Htake :
    take (Z.to_nat (Z.min stop (Z.of_nat (length items)))) items
    = take (Z.to_nat stop) items).
  { destruct (Z.le_ge_cases stop (Z.of_nat (length items))).
    - by rewrite Z.min_l.
    - rewrite Z.min_r, Nat2Z.id by lia.
      rewrite !take_ge; [done | lia | lia]. }
  rewrite Htake. apply alloc_ok.
Qed.

(** The loop [for i in ...: print(deck[i])] over indices that are all in
    range. *)
Lemma for_each_getitem_ok
    (deck : Deck) (σ : gmap loc (list val)) (items : list val)
    (indices : list Z) (vs : list val) :
  σ !! _cards deck = Some items →
  Forall2 (λ i v, (0 ≤ i < Z.of_nat (length items))%Z ∧
                  items !! Z.to_nat i = Some v) indices vs →
  Main.for_each (λ i, v ← Deck.__getitem__ deck i; mret [Main.Value v])
    indices σ
  = (Ok ((λ v, [Main.Value v]) <$> vs), σ).
Proof.
  intros H Hall.
  induction Hall as [| i v indices vs [Hi Hv] _ IH]; [reflexivity |].
  simpl Main.for_each.
  erewrite bind_ok; [| erewrite bind_ok; [reflexivity |]].
  2: { unfold Deck.__getitem__.
       eapply getitem_ok; [exact H | by apply index_of_front | exact Hv]. }
  erewrite bind_ok by exact IH. reflexivity.
Qed.

(** X21. [main()] raises nothing, in whatever store it starts. It prints
    the first five cards of the unshuffled deck, the Two of Clubs as the
    top card, 52 as the length after the card is added back, the cards at
    indices 0 to 4 (Three to Seven of Clubs, the Two having moved to the
    end), then, in its loop over the deck, two cards only, the Ace of
    Spades and the Two of Clubs, and the same two as highest and lowest.
    The list objects that existed before it ran are as they were. *)
Theorem main_prints
    (randbelow : nat → nat) (σ : gmap loc (list val)) :
  ∃ σ',
    Main.main randbelow σ
    = (Ok [[Main.Text "The deck is created, first 5 cards: ";
            Main.Items [VCard (mkCard CLUBS TWO); VCard (mkCard CLUBS THREE);
                        VCard (mkCard CLUBS FOUR); VCard (mkCard CLUBS FIVE);
                        VCard (mkCard CLUBS SIX)]];
           [Main.Text "Top card:"; Main.Value (VCard (mkCard CLUBS TWO))];
           [Main.Text "Added card back, the length is: "; Main.Number 52];
           [Main.Text "Accessing cards directly by index:"];
           [Main.Value (VCard (mkCard CLUBS THREE))];
           [Main.Value (VCard (mkCard CLUBS FOUR))];
           [Main.Value (VCard (mkCard CLUBS FIVE))];
           [Main.Value (VCard (mkCard CLUBS SIX))];
           [Main.Value (VCard (mkCard CLUBS SEVEN))];
           [Main.Text "Iterating through all cards in the deck:"];
           [Main.Value (VCard (mkCard SPADES ACE))];
           [Main.Value (VCard (mkCard CLUBS TWO))];
           [Main.Text "The highest card in deck:";
            Main.Value (VCard (mkCard SPADES ACE))];
           [Main.Text "The lowest card in deck:";
            Main.Value (VCard (mkCard CLUBS TWO))]],
       σ') ∧
    ∀ l, is_Some (σ !! l) → σ' !! l = σ !! l.
Proof.
  destruct (Deck_init_unshuffled_ok randbelow σ) as (deck & Hinit & Hfresh).
  set (two := mkCard CLUBS TWO).
  set (rest := VCard <$> drop 1 Deck.all_cards).
  assert (H0 : <[_cards deck := VCard two :: rest]> σ !! _cards deck
               = Some (VCard two :: rest)) by apply lookup_insert_eq.
  destruct (Deck_cards_ok deck _ _ H0) as (s & Hs & Hfs & Hsl).
  destruct (prefix_ok
              (<[s := VCard two :: rest]>
                 (<[_cards deck := VCard two :: rest]> σ))
              s (VCard two :: rest) 5)
    as (p & Hp & Hfp); [apply lookup_insert_eq | lia |].
  assert (Hpl : p ≠ _cards deck).
  { intros ->. rewrite lookup_insert_ne in Hfp by exact Hsl.
    rewrite lookup_insert_eq in Hfp. discriminate. }
  set (σ2 := <[p := take (Z.to_nat 5) (VCard two :: rest)]>
               (<[s := VCard two :: rest]>
                  (<[_cards deck := VCard two :: rest]> σ))) in *.
  assert (H2 : σ2 !! _cards deck = Some (VCard two :: rest)).
  { subst σ2. do 2 (rewrite lookup_insert_ne by done).
    apply lookup_insert_eq. }
  pose proof (Deck_draw_ok _ _ _ H2) as Hdraw. cbv beta iota in Hdraw.
  assert (H3 : <[_cards deck := rest]> σ2 !! _cards deck = Some rest)
    by apply lookup_insert_eq.
  destruct (Deck_add_card_guard deck _ _ (VCard two) H3) as [_ Hadd].
  specialize (Hadd eq_refl). rewrite insert_insert_eq in Hadd.
  set (σ4 := <[_cards deck := rest ++ [VCard two]]> σ2) in *.
  assert (H4 : σ4 !! _cards deck = Some (rest ++ [VCard two]))
    by apply lookup_insert_eq.
  assert (Hmax : Deck.max deck σ4 = (Ok (VCard (mkCard SPADES ACE)), σ4))
    by (rewrite (Deck_max_ok _ _ _ H4); reflexivity).
  assert (Hmin : Deck.min deck σ4 = (Ok (VCard two), σ4))
    by (rewrite (Deck_min_ok _ _ _ H4); reflexivity).
  exists σ4. split.
  - unfold Main.main.
    erewrite bind_ok by exact Hinit.
    erewrite bind_ok by exact Hs.
    erewrite bind_ok by exact Hp.
    erewrite bind_ok by (apply load_ok, lookup_insert_eq).
    erewrite bind_ok by exact Hdraw.
    erewrite bind_ok by exact Hadd.
    erewrite bind_ok by apply (Deck_len_ok _ _ _ H4).
    erewrite bind_ok.
    2: { apply (for_each_getitem_ok deck σ4 _ _ (take 5 rest) H4).
         repeat constructor; simpl; lia. }
    erewrite bind_ok by apply (Deck_iter_cards _ _ _ _ Hmax Hmin).
    erewrite bind_ok by exact Hmax.
    erewrite bind_ok by exact Hmin.
    reflexivity.
  - intros l Hl.
    assert (l ≠ _cards deck)
      by (intros ->; rewrite Hfresh in Hl; by destruct Hl).
    assert (l ≠ s).
    { intros ->. rewrite lookup_insert_ne in Hfs by done.
      rewrite Hfs in Hl. by destruct Hl. }
    assert (l ≠ p).
    { intros ->. do 2 (rewrite lookup_insert_ne in Hfp by done).
      rewrite Hfp in Hl. by destruct Hl. }
    subst σ4 σ2. by rewrite !lookup_insert_ne.
Qed.
